(** * LangChain integration scripts: HTTP API, serverless handler, chat UI

    A model of [src/langchain/app.py], [src/langchain/deploy_aws.py] and
    [src/langchain/streamlit_app.py].  The three scripts are glue around
    third-party code (LangChain, Chroma, FastAPI, Streamlit, boto3): every
    call into that code is an oracle of the class [Library] below, which
    may return any value, raise any exception and change its own state.
    What the scripts themselves do (the order of the calls, the guards,
    the [try] blocks, the module globals, the dictionaries they build) is
    modelled as written, in a state-and-exception monad over [World]. *)

From Stdlib Require Import ZArith QArith.
From stdpp Require Import gmap strings list fin_maps relations pretty.

Set Warnings "-register-all".
Local Open Scope string_scope.

(** ** Python values and exceptions *)

(** The values the scripts handle.  A [dict] with string keys is a finite
    map; an object of a third-party class is an opaque reference. *)
Inductive PyVal : Type :=
| VNone
| VBool (b : bool)
| VInt (z : Z)
| VFloat (q : Q)
| VStr (s : string)
| VList (l : list PyVal)
| VDict (d : gmap string PyVal)
| VObj (ref : N).

(** Instances of Python's [Exception]: FastAPI's [HTTPException], which
    the handlers raise themselves, and every other class by its name and
    its [str()].  The interpreter's own signals ([KeyboardInterrupt],
    [SystemExit]) are not instances of [Exception] and are not modelled. *)
Inductive PyExc : Type :=
| HTTPException (status_code : Z) (detail : string)
| PyError (cls : string) (text : string).

Definition ValueError (msg : string) : PyExc := PyError "ValueError" msg.
Definition NameError (name : string) : PyExc :=
  PyError "NameError" ("name '" ++ name ++ "' is not defined").
Definition KeyError (key : string) : PyExc := PyError "KeyError" ("'" ++ key ++ "'").
Definition AttributeError (text : string) : PyExc := PyError "AttributeError" text.
Definition TypeError (text : string) : PyExc := PyError "TypeError" text.

Inductive Outcome (A : Type) : Type :=
| Returned (a : A)
| Raised (e : PyExc).
Arguments Returned {A} a.
Arguments Raised {A} e.

(** ** Third-party code *)

(** What the scripts import.  [lib_call f args kwargs] is a call of the
    function or constructor named [f]; [lib_method self m args kwargs] is
    [self.m(...)].  Both read the process environment and act on the
    state [Ext] of the libraries and of the services behind them (the
    conversation memory, the model provider, the file system, the UI). *)
Class Library : Type := {
  Ext : Type;
  lib_call : string → list PyVal → list (string * PyVal) →
             gmap string string → Ext → Outcome PyVal * Ext;
  lib_method : PyVal → string → list PyVal → list (string * PyVal) →
               gmap string string → Ext → Outcome PyVal * Ext;
  (** [bool(o)] of a third-party object *)
  obj_truthy : N → bool;
  (** [type(o).__name__] of a third-party object *)
  obj_type_name : N → string;
  (** [json.dumps] *)
  json_dumps : PyVal → Outcome string;
  (** [str(e)] of an [HTTPException] *)
  str_HTTPException : Z → string → string
}.

(** Truth value testing, as [if x:] and [not x] do it. *)
Definition truthy `{L : Library} (v : PyVal) : bool :=
  match v with
  | VNone => false
  | VBool b => b
  | VInt z => negb (z =? 0)%Z
  | VFloat q => negb (Qeq_bool q 0)
  | VStr s => negb (String.eqb s "")
  | VList l => match l with [] => false | _ => true end
  | VDict d => negb (bool_decide (d = ∅))
  | VObj r => obj_truthy r
  end.

(** The same for the result of [os.environ.get]: a string or [None]. *)
Definition str_truthy (s : option string) : bool :=
  match s with
  | Some s => negb (String.eqb s "")
  | None => false
  end.

(** [str(e)], also what an f-string prints for [{e}]. *)
Definition py_str `{L : Library} (e : PyExc) : string :=
  match e with
  | HTTPException status_code detail => str_HTTPException status_code detail
  | PyError _ text => text
  end.

(** [type(v).__name__] *)
Definition type_name `{L : Library} (v : PyVal) : string :=
  match v with
  | VNone => "NoneType"
  | VBool _ => "bool"
  | VInt _ => "int"
  | VFloat _ => "float"
  | VStr _ => "str"
  | VList _ => "list"
  | VDict _ => "dict"
  | VObj r => obj_type_name r
  end.

(** Whether a string holds the character of code 0, which no environment
    variable can hold. *)
Fixpoint has_nul (s : string) : bool :=
  match s with
  | EmptyString => false
  | String c s' => Ascii.eqb c Ascii.zero || has_nul s'
  end.

(** [d.get(key, default)] *)
Definition dict_get (d : gmap string PyVal) (key : string) (default : PyVal) : PyVal :=
  match d !! key with
  | Some v => v
  | None => default
  end.

(** ** The state of a process and the monad of its statements *)

Section runtime.
Context `{L : Library}.

Record World : Type := mkWorld {
  environ : gmap string string;       (* os.environ *)
  globals : gmap string PyVal;        (* module-level names that functions read *)
  session_state : gmap string PyVal;  (* st.session_state *)
  stdout : list string;               (* the lines the script's own print() calls wrote,
                                         oldest first; what third-party code prints (a
                                         chain built with verbose=True does) is part of
                                         [ext], and no statement below speaks of it *)
  ext : Ext
}.

Definition M (A : Type) : Type := World → Outcome A * World.

Definition ret {A} (a : A) : M A := fun w => (Returned a, w).

Definition bind {A B} (m : M A) (k : A → M B) : M B :=
  fun w => match m w with
           | (Returned a, w') => k a w'
           | (Raised e, w') => (Raised e, w')
           end.

Definition raise {A} (e : PyExc) : M A := fun w => (Raised e, w).

(** [try: body / except Exception as e: handler e].  What [body] did to
    the world before it raised stays done. *)
Definition try_except {A} (body : M A) (handler : PyExc → M A) : M A :=
  fun w => match body w with
           | (Returned a, w') => (Returned a, w')
           | (Raised e, w') => handler e w'
           end.

Definition set_ext (x : Ext) (w : World) : World :=
  mkWorld (environ w) (globals w) (session_state w) (stdout w) x.

(** A call into third-party code: it changes [ext] and nothing else of
    the world.  In particular the text such code prints is not added to
    [stdout], which records the scripts' own [print] calls only. *)
Definition call (f : string) (args : list PyVal) (kwargs : list (string * PyVal)) : M PyVal :=
  fun w => let '(r, x) := lib_call f args kwargs (environ w) (ext w) in (r, set_ext x w).

Definition method (self : PyVal) (m : string) (args : list PyVal)
    (kwargs : list (string * PyVal)) : M PyVal :=
  fun w => let '(r, x) := lib_method self m args kwargs (environ w) (ext w) in (r, set_ext x w).

(** Reading a module-level name from inside a function; an unbound one
    is a [NameError].  A module-level name that only the module body
    itself uses is a variable of the monad and is not stored. *)
Definition load_global (name : string) : M PyVal :=
  fun w => match globals w !! name with
           | Some v => (Returned v, w)
           | None => (Raised (NameError name), w)
           end.

Definition store_global (name : string) (v : PyVal) : M unit :=
  fun w => (Returned tt,
            mkWorld (environ w) (<[name := v]> (globals w)) (session_state w) (stdout w) (ext w)).

(** [os.environ.get(name)] *)
Definition os_environ_get (name : string) : M (option string) :=
  fun w => (Returned (environ w !! name), w).

(** [os.environ[name] = value], for a [name] that is a valid variable
    name: a value that is not a [str] is a [TypeError], a string with a
    NUL character is refused by [putenv] with a [ValueError], and in both
    cases the environment stays as it was. *)
Definition os_environ_set (name : string) (value : PyVal) : M unit :=
  fun w => match value with
           | VStr s =>
               if has_nul s then (Raised (ValueError "embedded null byte"), w)
               else (Returned tt,
                     mkWorld (<[name := s]> (environ w)) (globals w) (session_state w)
                             (stdout w) (ext w))
           | _ => (Raised (TypeError ("str expected, not " ++ type_name value)), w)
           end.

Definition print (line : string) : M unit :=
  fun w => (Returned tt,
            mkWorld (environ w) (globals w) (session_state w) (stdout w ++ [line]) (ext w)).

End runtime.

Arguments World : clear implicits.
Arguments World {L}.

Declare Scope py_scope.
Delimit Scope py_scope with py.
Notation "x ← y ; z" := (bind y (fun x => z))
  (at level 20, y at level 100, z at level 200, only parsing) : py_scope.
Notation "' x ← y ; z" := (bind y (fun x => z))
  (at level 20, x pattern, y at level 100, z at level 200, only parsing) : py_scope.
Notation "x ;; z" := (bind x (fun _ => z))
  (at level 100, z at level 200, only parsing, right associativity) : py_scope.

(** ** [app.py]: the HTTP API *)

Module App.
Section app.
Context `{L : Library}.
Local Open Scope py_scope.

(** [app = FastAPI(title="LangChain API", version="1.0")]: the server
    object, of which the handlers read only [app.version]. *)
Record FastAPI : Type := { title : string; version : string }.
Definition app : FastAPI := {| title := "LangChain API"; version := "1.0" |}.

(** Request models.  [session_id: Optional[str] = "default"] may be
    [None] when the client sends [null]. *)
Record ChatRequest : Type := { message : string; session_id : option string }.
Record QueryRequest : Type := { query_text : string }.


Definition str_or_None (s : option string) : PyVal :=
  match s with Some s => VStr s | None => VNone end.

(** Lines 51-61: the right-hand side of the assignment to [vector_store]. *)
Definition create_vector_store : M PyVal :=
  loader ← call "DirectoryLoader" [VStr "data"] [("glob", VStr "**/*.txt")];
  documents ← method loader "load" [] [];
  text_splitter ← call "RecursiveCharacterTextSplitter" []
                    [("chunk_size", VInt 1000); ("chunk_overlap", VInt 100)];
  texts ← method text_splitter "split_documents" [documents] [];
  embeddings ← call "OpenAIEmbeddings" [] [];
  call "Chroma.from_documents" [texts; embeddings] [("persist_directory", VStr "chroma_db")].

(** Lines 50-70: the [try] block under [if os.path.exists("data")]. *)
Definition init_vector_store (llm : PyVal) : M unit :=
  try_except
    (vector_store ← create_vector_store;
     store_global "vector_store" vector_store;;
     retriever ← method vector_store "as_retriever" [] [];
     retrieval_qa ← call "RetrievalQA.from_chain_type" []
                      [("llm", llm); ("chain_type", VStr "stuff"); ("retriever", retriever)];
     store_global "retrieval_qa" retrieval_qa)
    (fun e => print ("Error initializing vector store: " ++ py_str e)).

(** Lines 30-49: the key check, the conversation chain, [vector_store =
    None] and the test of the data directory, whose result is returned
    together with [llm]. *)
Definition init_conversation : M (PyVal * PyVal) :=
  key ← os_environ_get "OPENAI_API_KEY";
  if negb (str_truthy key)
  then raise (ValueError "OPENAI_API_KEY environment variable is not set")
  else
    llm ← call "ChatOpenAI" [] [("temperature", VFloat (7 # 10))];
    memory ← call "ConversationBufferMemory" [] [("return_messages", VBool true)];
    conversation ← call "ConversationChain" []
                     [("llm", llm); ("memory", memory); ("verbose", VBool true)];
    store_global "conversation" conversation;;
    store_global "vector_store" VNone;;
    data_exists ← call "os.path.exists" [VStr "data"] [];
    ret (llm, data_exists).

(** The module body, run once when the server imports [app]. *)
Definition module_init : M unit :=
  '(llm, data_exists) ← init_conversation;
  if truthy data_exists then init_vector_store llm else ret tt.

(** [GET /health] *)
Definition health_check : M PyVal :=
  ret (VDict {[ "status" := VStr "healthy"; "version" := VStr (version app) ]}).

(** [POST /chat]: the body of the [try] and the handler. *)
Definition chat_try (request : ChatRequest) : M PyVal :=
  conversation ← load_global "conversation";
  response ← method conversation "predict" [] [("input", VStr (message request))];
  ret (VDict {[ "response" := response;
                "session_id" := str_or_None (session_id request) ]}).

Definition chat (request : ChatRequest) : M PyVal :=
  try_except (chat_try request) (fun e => raise (HTTPException 500 (py_str e))).

(** [POST /query]: the body of the [try] and the handler. *)
Definition query_try (request : QueryRequest) : M PyVal :=
  retrieval_qa ← load_global "retrieval_qa";
  response ← method retrieval_qa "run" [VStr (query_text request)] [];
  ret (VDict {[ "response" := response ]}).

Definition query (request : QueryRequest) : M PyVal :=
  vector_store ← load_global "vector_store";
  if negb (truthy vector_store)
  then raise (HTTPException 400 "Vector store not initialized")
  else try_except (query_try request) (fun e => raise (HTTPException 500 (py_str e))).

(** The AWS Lambda handler of [app.py]. *)
Definition lambda_handler (event : gmap string PyVal) (context : PyVal) : M PyVal :=
  let message := dict_get event "message" (VStr "") in
  let session_id := dict_get event "session_id" (VStr "default") in
  conversation ← load_global "conversation";
  response ← method conversation "predict" [] [("input", message)];
  ret (VDict {[ "statusCode" := VInt 200;
                "body" := VDict {[ "response" := response; "session_id" := session_id ]} ]}).

End app.
End App.

(** ** [deploy_aws.py]: the stand-alone AWS Lambda handler *)

Module DeployAws.
Section deploy_aws.
Context `{L : Library}.
Local Open Scope py_scope.

(** [json.dumps(v)], a string or the error it raises. *)
Definition dumps (v : PyVal) : M PyVal :=
  match json_dumps v with
  | Returned s => ret (VStr s)
  | Raised e => raise e
  end.

Definition lambda_handler (event : gmap string PyVal) (context : PyVal) : M PyVal :=
  llm ← call "Bedrock" []
          [("model_id", VStr "anthropic.claude-v2"); ("region_name", VStr "us-east-1")];
  let session_id := dict_get event "session_id" (VStr "default") in
  message_history ← call "DynamoDBChatMessageHistory" []
                      [("table_name", VStr "langchain-chat-history");
                       ("session_id", session_id)];
  conversation ← call "ConversationChain" [] [("llm", llm); ("memory", message_history)];
  let user_input := dict_get event "message" (VStr "") in
  response ← method conversation "predict" [] [("input", user_input)];
  body ← dumps (VDict {[ "response" := response; "session_id" := session_id ]});
  ret (VDict {[ "statusCode" := VInt 200; "body" := body ]}).

End deploy_aws.
End DeployAws.

(** ** [streamlit_app.py]: the chat UI *)

(** Streamlit runs the script from top to bottom on every interaction.
    Widgets and output calls are calls into the library; a module
    attribute such as [st.sidebar] is read by a call without arguments.
    The context managers of Streamlit do not suppress exceptions. *)
Module StreamlitApp.
Section streamlit_app.
Context `{L : Library}.
Local Open Scope py_scope.

(** [with cm: body] *)
Definition with_ {A} (cm : PyVal) (body : M A) : M A :=
  method cm "__enter__" [] [];;
  fun w => match body w with
           | (Returned a, w') => (method cm "__exit__" [VNone; VNone; VNone] [];; ret a) w'
           | (Raised e, w') => (method cm "__exit__" [VStr (py_str e)] [];; raise e) w'
           end.

(** [v[key]] on a dict *)
Definition subscript (v : PyVal) (key : string) : M PyVal :=
  match v with
  | VDict d => match d !! key with
               | Some x => ret x
               | None => raise (KeyError key)
               end
  | _ => raise (TypeError "object is not subscriptable")
  end.

(** [st.session_state.messages] and [st.session_state.messages.append(m)].
    The script only ever stores a list under this name, and the
    statements below that read the history assume one.  A value of
    another type, which only other code could have stored, is refused
    here with a [TypeError] in every case, where Python would still
    iterate over a string or a dict; nothing is claimed about that case. *)
Definition session_messages : M (list PyVal) :=
  fun w => match session_state w !! "messages" with
           | Some (VList l) => (Returned l, w)
           | Some _ => (Raised (TypeError "object is not iterable"), w)
           | None => (Raised (AttributeError "st.session_state has no attribute 'messages'"), w)
           end.

Definition set_session_messages (l : list PyVal) : M unit :=
  fun w => (Returned tt,
            mkWorld (environ w) (globals w) (<["messages" := VList l]> (session_state w))
                    (stdout w) (ext w)).

Definition append_message (role : string) (content : PyVal) : M unit :=
  l ← session_messages;
  set_session_messages (l ++ [VDict {[ "role" := VStr role; "content" := content ]}]).

Fixpoint for_each {A} (l : list A) (body : A → M unit) : M unit :=
  match l with
  | [] => ret tt
  | x :: l' => body x;; for_each l' body
  end.

Definition initialize_langchain : M (PyVal * PyVal) :=
  api_key ← load_global "api_key";
  if negb (truthy api_key) then
    call "st.warning" [VStr "Please enter your OpenAI API key in the sidebar."] [];;
    ret (VNone, VNone)
  else
    model_name ← load_global "model_name";
    temperature ← load_global "temperature";
    chat_model ← call "ChatOpenAI" []
                   [("model_name", model_name); ("temperature", temperature);
                    ("streaming", VBool true)];
    memory ← call "ConversationBufferMemory" [] [("return_messages", VBool true)];
    conversation ← call "ConversationChain" []
                     [("llm", chat_model); ("memory", memory); ("verbose", VBool true)];
    ret (chat_model, conversation).

Definition initialize_rag : M PyVal :=
  api_key ← load_global "api_key";
  if negb (truthy api_key) then ret VNone else
  data_exists ← call "os.path.exists" [VStr "data"] [];
  if negb (truthy data_exists) then ret VNone else
  try_except
    (embeddings ← call "OpenAIEmbeddings" [] [];
     db_exists ← call "os.path.exists" [VStr "chroma_db"] [];
     db_files ← (if truthy db_exists then call "os.listdir" [VStr "chroma_db"] []
                 else ret db_exists);
     if truthy db_files then
       vector_store ← call "Chroma" []
                        [("persist_directory", VStr "chroma_db");
                         ("embedding_function", embeddings)];
       '(chat_model, _) ← initialize_langchain;
       if negb (truthy chat_model) then ret VNone else
       retriever ← method vector_store "as_retriever" [] [];
       call "RetrievalQA.from_chain_type" []
         [("llm", chat_model); ("chain_type", VStr "stuff"); ("retriever", retriever)]
     else
       call "st.info"
         [VStr "No existing vector store found. Please add documents to the 'data' folder."] [];;
       ret VNone)
    (fun e => call "st.error" [VStr ("Error initializing RAG: " ++ py_str e)] [];; ret VNone).

(** Lines 11-32: page set-up, sidebar, chat history. *)
Definition render_page : M unit :=
  call "st.set_page_config" [] [("page_title", VStr "LangChain Demo"); ("page_icon", VStr "🦜")];;
  call "st.title" [VStr "🦜 LangChain Interactive Demo"] [];;
  sidebar ← call "st.sidebar" [] [];
  with_ sidebar
    (call "st.header" [VStr "Settings"] [];;
     api_key ← call "st.text_input" [VStr "OpenAI API Key"] [("type", VStr "password")];
     store_global "api_key" api_key;;
     (if truthy api_key then os_environ_set "OPENAI_API_KEY" api_key else ret tt);;
     temperature ← call "st.slider" [VStr "Temperature"]
                     [("min_value", VFloat 0); ("max_value", VFloat 1);
                      ("value", VFloat (7 # 10)); ("step", VFloat (1 # 10))];
     store_global "temperature" temperature;;
     model_name ← call "st.selectbox" [VStr "Model"; VList [VStr "gpt-3.5-turbo"; VStr "gpt-4"]] [];
     store_global "model_name" model_name);;
  (fun w => match session_state w !! "messages" with
            | None => set_session_messages [] w
            | Some _ => (Returned tt, w)
            end);;
  messages ← session_messages;
  for_each messages (fun message =>
    role ← subscript message "role";
    bubble ← call "st.chat_message" [role] [];
    with_ bubble (content ← subscript message "content";
                  call "st.markdown" [content] [];; ret tt)).

(** Lines 94-123: the chat input. *)
Definition chat_section : M unit :=
  prompt ← call "st.chat_input" [VStr "What would you like to know?"] [];
  if truthy prompt then
    append_message "user" prompt;;
    bubble ← call "st.chat_message" [VStr "user"] [];
    with_ bubble (call "st.markdown" [prompt] []);;
    bubble ← call "st.chat_message" [VStr "assistant"] [];
    with_ bubble
      (container ← call "st.container" [] [];
       st_callback ← call "StreamlitCallbackHandler" [container] [];
       response_container ← call "st.empty" [] [];
       '(_, conversation) ← initialize_langchain;
       if negb (truthy conversation) then
         call "st.warning" [VStr "Please configure your API key to continue."] [];; ret tt
       else
         spinner ← call "st.spinner" [VStr "Thinking..."] [];
         response ← with_ spinner
           (response ← method conversation "predict" []
                         [("input", prompt); ("callbacks", VList [st_callback])];
            method response_container "markdown" [response] [];;
            ret response);
         append_message "assistant" response)
  else ret tt.

(** Lines 125-142: the document question-answering section. *)
Definition rag_section : M unit :=
  call "st.divider" [] [];;
  call "st.header" [VStr "📚 Document Question Answering"] [];;
  rag_query ← call "st.text_input" [VStr "Ask a question about your documents:"] [];
  if truthy rag_query then
    retrieval_qa ← initialize_rag;
    if negb (truthy retrieval_qa) then
      call "st.warning"
        [VStr "Document retrieval is not available. Please check your API key and data folder."] [];;
      ret tt
    else
      spinner ← call "st.spinner" [VStr "Searching documents..."] [];
      with_ spinner
        (container ← call "st.container" [] [];
         st_callback ← call "StreamlitCallbackHandler" [container] [];
         response ← method retrieval_qa "run" [rag_query] [("callbacks", VList [st_callback])];
         call "st.markdown" [response] [];; ret tt)
  else ret tt.

(** One run of the script. *)
Definition script : M unit :=
  render_page;;
  chat_section;;
  rag_section;;
  call "st.divider" [] [];;
  call "st.caption" [VStr "Powered by LangChain 🦜️🔗 and Streamlit"] [];;
  ret tt.

End streamlit_app.
End StreamlitApp.

(** ** A scripted library, to run the scripts on concrete inputs *)

(** Every call is logged by name.  A call whose name is in [failing]
    raises; any other returns what [answers] has for the name followed by
    its first string argument, else for the name alone, else an object. *)
Record Script : Type := {
  failing : list string;
  answers : gmap string PyVal;
  json_text : string
}.

Definition call_key (f : string) (args : list PyVal) : string :=
  match args with
  | VStr a :: _ => f ++ ":" ++ a
  | _ => f
  end.

Definition reply (s : Script) (f : string) (args : list PyVal) : Outcome PyVal :=
  if bool_decide (f ∈ failing s) then Raised (PyError "RuntimeError" (f ++ " failed"))
  else match answers s !! call_key f args with
       | Some v => Returned v
       | None => Returned (default (VObj 0) (answers s !! f))
       end.

Definition scripted (s : Script) : Library := {|
  Ext := list string;
  lib_call f args _ _ log := (reply s f args, (log ++ [f])%list);
  lib_method _ m args _ _ log := (reply s m args, (log ++ [m])%list);
  obj_truthy _ := true;
  obj_type_name _ := "object";
  json_dumps _ := Returned (json_text s);
  str_HTTPException status_code detail := pretty status_code ++ ": " ++ detail
|}.

(** A process that has not run anything yet. *)
Definition fresh_world (s : Script) (env : gmap string string) : World (L := scripted s) :=
  @mkWorld (scripted s) env ∅ ∅ [] [].

(** JSON text of an object with two string members. *)
Definition dq : string := String (Ascii.ascii_of_nat 34) EmptyString.
Definition json_object2 (k1 v1 k2 v2 : string) : string :=
  "{" ++ dq ++ k1 ++ dq ++ ": " ++ dq ++ v1 ++ dq ++ ", "
      ++ dq ++ k2 ++ dq ++ ": " ++ dq ++ v2 ++ dq ++ "}".

(** ** The routes of the HTTP API and the serverless entry points *)

(** The routing table that the decorators of [app.py] build. *)
Inductive Request : Type :=
| GetHealth
| PostChat (request : App.ChatRequest)
| PostQuery (request : App.QueryRequest).

Definition handle `{L : Library} (r : Request) : M PyVal :=
  match r with
  | GetHealth => App.health_check
  | PostChat request => App.chat request
  | PostQuery request => App.query request
  end.

(** The status the server sends for an outcome of a handler: 200 for a
    returned value, the status of a raised [HTTPException]; any other
    exception has left the handler unanswered. *)
Definition http_status (o : Outcome PyVal) : option Z :=
  match o with
  | Returned _ => Some 200%Z
  | Raised (HTTPException status_code _) => Some status_code
  | Raised (PyError _ _) => None
  end.

(** One request served: the world after the handler ran. *)
Definition serves `{L : Library} (w w' : World) : Prop :=
  ∃ r, (handle r w).2 = w'.

(** The two functions named [lambda_handler]. *)
Inductive EntryPoint : Type := InApp | InDeployAws.

Definition serverless `{L : Library} (p : EntryPoint) : gmap string PyVal → PyVal → M PyVal :=
  match p with
  | InApp => App.lambda_handler
  | InDeployAws => DeployAws.lambda_handler
  end.


(** ** Scripts and inputs of the concrete runs *)

Definition with_key : gmap string string := {[ "OPENAI_API_KEY" := "sk-test" ]}.

(** The model answers, there is no data directory. *)
Definition chatty : Script :=
  {| failing := [];
     answers := {[ "predict" := VStr "Hello!"; "os.path.exists" := VBool false ]};
     json_text := json_object2 "response" "Hello!" "session_id" "default" |}.

(** The model provider is down. *)
Definition flaky_model : Script :=
  {| failing := ["predict"];
     answers := {[ "os.path.exists" := VBool false ]};
     json_text := "" |}.

(** The data directory exists; building the vector store fails. *)
Definition broken_store : Script :=
  {| failing := ["Chroma.from_documents"];
     answers := {[ "os.path.exists" := VBool true ]};
     json_text := "" |}.

(** The data directory exists and the vector store is built; building
    the retrieval chain fails. *)
Definition broken_chain : Script :=
  {| failing := ["RetrievalQA.from_chain_type"];
     answers := {[ "os.path.exists" := VBool true ]};
     json_text := "" |}.

(** The chat UI: a message typed, the key field empty or filled. *)
Definition ui_widgets (api_key : string) : gmap string PyVal :=
  {[ "st.text_input:OpenAI API Key" := VStr api_key;
     "st.text_input" := VStr "";
     "st.slider" := VFloat (7 # 10);
     "st.selectbox" := VStr "gpt-3.5-turbo";
     "st.chat_input" := VStr "Hello";
     "predict" := VStr "Hello!" ]}.

Definition ui_no_key : Script :=
  {| failing := []; answers := ui_widgets ""; json_text := "" |}.
Definition ui_key_typed : Script :=
  {| failing := []; answers := ui_widgets "sk-test"; json_text := "" |}.

(** The HTTP API process after its module body ran with the key set. *)
Definition started (s : Script) : World (L := scripted s) :=
  (App.module_init (fresh_world s with_key)).2.

Definition hello_event : gmap string PyVal := {[ "message" := VStr "Hello" ]}.
Definition hello_request : App.ChatRequest :=
  {| App.message := "Hello"; App.session_id := Some "s-42" |}.
Definition a_query : App.QueryRequest := {| App.query_text := "What is a chunk?" |}.

(** ** Relations and predicates of the further properties *)

(** ** Relations that a run keeps *)

(** [keeps R m]: whatever the library answers, and whether [m] returns or
    raises, the world after [m] is related by [R] to the world before. *)
Definition keeps `{L : Library} (R : World → World → Prop) {A} (m : M A) : Prop :=
  ∀ w, R w (m w).2.

(** Only the state of the library may differ. *)
Definition same_process `{L : Library} (w w' : World) : Prop :=
  environ w' = environ w ∧ globals w' = globals w ∧
  session_state w' = session_state w ∧ stdout w' = stdout w.

(** The environment, the session state and the output are as before. *)
Definition quiet `{L : Library} (w w' : World) : Prop :=
  environ w' = environ w ∧ session_state w' = session_state w ∧ stdout w' = stdout w.

(** The globals and the environment are as before. *)
Definition same_names `{L : Library} (w w' : World) : Prop :=
  globals w' = globals w ∧ environ w' = environ w.

(** ** A library that records its calls *)

(** Any library, with the names of the functions and methods called so
    far, oldest first, kept beside its state. *)
Definition logged (L : Library) : Library := {|
  Ext := (@Ext L * list string)%type;
  lib_call f args kwargs env x :=
    let r := @lib_call L f args kwargs env x.1 in (r.1, (r.2, (x.2 ++ [f])%list));
  lib_method self m args kwargs env x :=
    let r := @lib_method L self m args kwargs env x.1 in (r.1, (r.2, (x.2 ++ [m])%list));
  obj_truthy := @obj_truthy L;
  obj_type_name := @obj_type_name L;
  json_dumps := @json_dumps L;
  str_HTTPException := @str_HTTPException L
|}.

Definition calls {L : Library} (w : World (L := logged L)) : list string := (ext w).2.

(** ** What a run of the chat UI may change *)

(** An entry of the chat history as the script writes it. *)
Definition chat_message (v : PyVal) : Prop :=
  ∃ role content,
    v = VDict {[ "role" := VStr role; "content" := content ]} ∧
    (role = "user" ∨ role = "assistant").

Definition user_message (prompt : PyVal) : PyVal :=
  VDict {[ "role" := VStr "user"; "content" := prompt ]}.
Definition assistant_message (response : PyVal) : PyVal :=
  VDict {[ "role" := VStr "assistant"; "content" := response ]}.

(** The history is extended at its end, by entries of that form. *)
Definition history_grows `{L : Library} (w w' : World) : Prop :=
  ∀ l, session_state w !! "messages" = Some (VList l) →
       ∃ l', session_state w' !! "messages" = Some (VList (l ++ l')%list) ∧
             Forall chat_message l'.

(** The environment is as before, except perhaps at [key]. *)
Definition environ_but `{L : Library} (key : string) (w w' : World) : Prop :=
  ∀ name, name ≠ key → environ w' !! name = environ w !! name.

(** ** Calls that need the OpenAI key *)

(** The constructors that check the key and the methods that reach the
    model provider. *)
Definition model_call (f : string) : bool :=
  bool_decide (f ∈ ["ChatOpenAI"; "OpenAIEmbeddings"; "predict"; "run"]).

(** The sidebar field was filled in: [api_key] is bound to a true value. *)
Definition key_entered `{L : Library} (g : gmap string PyVal) : Prop :=
  ∃ k, g !! "api_key" = Some k ∧ truthy k = true.

(** No call of this run needed the key. *)
Definition no_model_call {L : Library} (w w' : World (L := logged L)) : Prop :=
  ∃ l, calls w' = (calls w ++ l)%list ∧ Forall (λ f, model_call f = false) l.

(** From a world whose globals are [g]: the globals stay [g], and a call
    that needs the key is made only if the key was entered. *)
Definition guarded {L : Library} (g : gmap string PyVal)
    (w w' : World (L := logged L)) : Prop :=
  globals w = g →
  globals w' = g ∧
  ∃ l, calls w' = (calls w ++ l)%list ∧
       (Exists (λ f, model_call f = true) l → key_entered (L := logged L) g).

(** A library whose calls all return, and whose key field is a string
    that an environment variable can hold. *)
Definition dependable (L : Library) : Prop :=
  (∀ f args kwargs env x, ∃ r x', lib_call f args kwargs env x = (Returned r, x')) ∧
  (∀ self m args kwargs env x, ∃ r x', lib_method self m args kwargs env x = (Returned r, x')) ∧
  (∀ env x r x',
     lib_call "st.text_input" [VStr "OpenAI API Key"] [("type", VStr "password")] env x
     = (Returned r, x') → ∃ s, r = VStr s ∧ has_nul s = false).

(** The history is missing, as before the first run, or a list of entries
    of the form the script writes. *)
Definition history_ok `{L : Library} (w : World) : Prop :=
  session_state w !! "messages" = None ∨
  ∃ l, session_state w !! "messages" = Some (VList l) ∧ Forall chat_message l.

(** Lines 29-32 of [streamlit_app.py]: the history is shown again. *)
Definition replay_history `{L : Library} : M unit :=
  bind StreamlitApp.session_messages (λ messages,
  StreamlitApp.for_each messages (λ message,
    bind (StreamlitApp.subscript message "role") (λ role,
    bind (call "st.chat_message" [role] []) (λ bubble,
    StreamlitApp.with_ bubble
      (bind (StreamlitApp.subscript message "content") (λ content,
       bind (call "st.markdown" [content] []) (λ _, ret tt))))))).

Arguments replay_history : simpl never.

(** The names that the sidebar binds. *)
Definition sidebar_bound `{L : Library} (w : World) : Prop :=
  is_Some (globals w !! "api_key") ∧ is_Some (globals w !! "model_name") ∧
  is_Some (globals w !! "temperature").

(** ** Further scripts and worlds of the concrete runs *)

(** The data directory exists and everything succeeds. *)
Definition with_data : Script :=
  {| failing := [];
     answers := {[ "os.path.exists" := VBool true;
                   "run" := VStr "A chunk is a slice of text." ]};
     json_text := "" |}.

(** The chat UI with a key typed, on a machine whose file system fails. *)
Definition rag_down : Script :=
  {| failing := ["os.path.exists"]; answers := ui_widgets "sk-test"; json_text := "" |}.

(** The HTTP API process with its calls recorded, after its module body
    ran with the key set. *)
Definition started_logged : World (L := logged (scripted chatty)) :=
  (App.module_init (@mkWorld (logged (scripted chatty)) with_key ∅ ∅ [] ([], []))).2.

(** A session of the chat UI that already holds one message. *)
Definition returning_user : World (L := scripted ui_no_key) :=
  @mkWorld (scripted ui_no_key) ∅ ∅
    {[ "messages" := VList [user_message (VStr "Hi")] ]} [] [].

(** The chat UI after the page was rendered. *)
Definition rendered (s : Script) : World (L := scripted s) :=
  (StreamlitApp.render_page (fresh_world s ∅)).2.

Definition full_event : gmap string PyVal :=
  {[ "message" := VStr "Hello"; "session_id" := VStr "s-42" ]}.

(** The chain constructor refuses what it is given as memory. *)
Definition refused_memory : Script :=
  {| failing := ["ConversationChain"]; answers := ∅; json_text := "" |}.

(** A fresh process of [deploy_aws.py], its calls recorded. *)
Definition cold_start : World (L := logged (scripted refused_memory)) :=
  @mkWorld (logged (scripted refused_memory)) ∅ ∅ ∅ [] ([], []).

(** The chat UI started in an environment that has a variable of its own. *)
Definition at_home : World (L := scripted ui_key_typed) :=
  fresh_world ui_key_typed {[ "HOME" := "/home/app" ]}.

(** * Properties *)

Ltac unfold_py :=
  unfold App.chat, App.chat_try, App.query, App.query_try, App.lambda_handler,
    App.health_check, DeployAws.lambda_handler, DeployAws.dumps,
    try_except, bind, ret, raise, load_global, store_global, call, method,
    os_environ_get, print in *.

(** Case analysis on the next call into the library. *)
Ltac step_call :=
  match goal with
  | |- context [lib_method ?s ?m ?a ?k ?v ?x] =>
      let r := fresh "r" in let x' := fresh "x" in let E := fresh "E" in
      destruct (lib_method s m a k v x) as [[r|r] x'] eqn:E
  | |- context [lib_call ?f ?a ?k ?v ?x] =>
      let r := fresh "r" in let x' := fresh "x" in let E := fresh "E" in
      destruct (lib_call f a k v x) as [[r|r] x'] eqn:E
  end; simpl in *.

Section http_api.
Context `{L : Library}.
Implicit Types (w : World) (request : App.ChatRequest).

(** A handler's calls into the library leave the module globals alone. *)
Lemma handle_globals r w : globals (handle r w).2 = globals w.
Proof.
  destruct r as [|request|request]; simpl; unfold_py; simpl.
  - reflexivity.
  - destruct (globals w !! "conversation"); simpl; [|reflexivity].
    step_call; reflexivity.
  - destruct (globals w !! "vector_store") as [vs|]; simpl; [|reflexivity].
    destruct (truthy vs); simpl; [|reflexivity].
    destruct (globals w !! "retrieval_qa"); simpl; [|reflexivity].
    step_call; reflexivity.
Qed.

Lemma serving_globals w w' : rtc serves w w' → globals w' = globals w.
Proof.
  induction 1 as [|w w1 w2 [r Hr] _ IH]; [reflexivity|].
  rewrite IH, <- Hr. apply handle_globals.
Qed.

(** [POST /query] with [vector_store] bound to a false value. *)
Lemma query_uninitialized (q : App.QueryRequest) w vs :
  globals w !! "vector_store" = Some vs → truthy vs = false →
  App.query q w = (Raised (HTTPException 400 "Vector store not initialized"), w).
Proof. intros Hvs Hf. unfold_py. rewrite Hvs. simpl. rewrite Hf. reflexivity. Qed.

(** [POST /query] with [vector_store] bound to a true value goes through
    the [try] block. *)
Lemma query_initialized (q : App.QueryRequest) w vs :
  globals w !! "vector_store" = Some vs → truthy vs = true →
  App.query q w =
  try_except (App.query_try q) (fun e => raise (HTTPException 500 (py_str e))) w.
Proof. intros Hvs Ht. unfold App.query, bind, load_global. rewrite Hvs. simpl. rewrite Ht. reflexivity. Qed.

(** The outcome of a [try] block whose handler raises [HTTPException(500)]. *)
Lemma try_500 (body : M PyVal) w :
  (∃ v w', body w = (Returned v, w') ∧
     try_except body (fun e => raise (HTTPException 500 (py_str e))) w = (Returned v, w')) ∨
  (∃ e w', body w = (Raised e, w') ∧
     try_except body (fun e => raise (HTTPException 500 (py_str e))) w
     = (Raised (HTTPException 500 (py_str e)), w')).
Proof.
  unfold try_except, raise. destruct (body w) as [[v|e] w']; [left|right]; eauto.
Qed.

(** C5: [GET /health] returns, in every state and without touching it,
    the record whose [status] is ["healthy"] and whose [version] is the
    version of the application, ["1.0"]; it has no other outcome. *)
Theorem health_check_healthy w :
  App.health_check w
  = (Returned (VDict {[ "status" := VStr "healthy"; "version" := VStr "1.0" ]}), w).
Proof. reflexivity. Qed.

(** A successful [POST /chat] returns the model's response together with
    the [session_id] of the request. *)
Lemma chat_returned request w v w' :
  App.chat request w = (Returned v, w') →
  ∃ response,
    v = VDict {[ "response" := response;
                 "session_id" := App.str_or_None (App.session_id request) ]}.
Proof.
  unfold_py. destruct (globals w !! "conversation"); simpl; [|discriminate].
  step_call; intros [= <- <-]. eauto.
Qed.

(** The three answers of [POST /query]. *)
Lemma query_status (q : App.QueryRequest) w vs :
  globals w !! "vector_store" = Some vs →
  (truthy vs = false ∧ http_status (App.query q w).1 = Some 400%Z) ∨
  (truthy vs = true ∧ http_status (App.query q w).1 = Some 200%Z) ∨
  (truthy vs = true ∧ http_status (App.query q w).1 = Some 500%Z).
Proof.
  intros Hvs. destruct (truthy vs) eqn:Ht.
  - right. rewrite (query_initialized q w vs Hvs Ht).
    destruct (try_500 (App.query_try q) w) as [(v & w1 & _ & ->)|(e & w1 & _ & ->)]; auto.
  - left. by rewrite (query_uninitialized q w vs Hvs Ht).
Qed.

(** C4: when [POST /chat] succeeds, the [session_id] of the response is
    the [session_id] of the request. *)
Theorem chat_echoes_session_id request w v w' :
  App.chat request w = (Returned v, w') →
  ∃ d, v = VDict d ∧
       d !! "session_id" = Some (App.str_or_None (App.session_id request)) ∧
       is_Some (d !! "response").
Proof.
  intros Hr. apply chat_returned in Hr as [response ->].
  eexists. split; [reflexivity|]. split.
  - rewrite lookup_insert_ne by done. by rewrite lookup_singleton_eq.
  - rewrite lookup_insert_eq. by eexists.
Qed.

(** C9: two [POST /chat] requests with the same message, served in the
    same state, differ at most in the echoed [session_id]: both fail with
    the same error, or both succeed with the same [response], and both
    leave the same state behind. *)
Theorem chat_response_independent_of_session_id (message : string)
    (sid1 sid2 : option string) w :
  (∃ e w', App.chat {| App.message := message; App.session_id := sid1 |} w = (Raised e, w') ∧
           App.chat {| App.message := message; App.session_id := sid2 |} w = (Raised e, w')) ∨
  (∃ response w',
     App.chat {| App.message := message; App.session_id := sid1 |} w
     = (Returned (VDict {[ "response" := response; "session_id" := App.str_or_None sid1 ]}), w') ∧
     App.chat {| App.message := message; App.session_id := sid2 |} w
     = (Returned (VDict {[ "response" := response; "session_id" := App.str_or_None sid2 ]}), w')).
Proof.
  unfold_py. simpl. destruct (globals w !! "conversation"); simpl.
  - step_call; [right|left]; eauto.
  - left; eauto.
Qed.

(** [POST /query] with [vector_store] bound: 400 exactly when the value
    is false; when it is true, 200 or 500, and an error [e] of the
    retrieval chain becomes a 500 with detail [str(e)]. *)
Lemma query_answers (q : App.QueryRequest) w vs :
  globals w !! "vector_store" = Some vs →
  (http_status (App.query q w).1 = Some 400%Z ↔ truthy vs = false) ∧
  (truthy vs = true →
     (http_status (App.query q w).1 = Some 200%Z ∨ http_status (App.query q w).1 = Some 500%Z) ∧
     ∀ e w', App.query_try q w = (Raised e, w') →
             App.query q w = (Raised (HTTPException 500 (py_str e)), w')).
Proof.
  intros Hvs. destruct (truthy vs) eqn:Ht.
  - rewrite (query_initialized q w vs Hvs Ht).
    destruct (try_500 (App.query_try q) w) as [(v & w1 & Hb & ->)|(e & w1 & Hb & ->)]; simpl.
    + split; [split; discriminate|]. intros _. split; [by left|].
      intros e w' He. rewrite Hb in He. discriminate.
    + split; [split; discriminate|]. intros _. split; [by right|].
      intros e' w' He. rewrite Hb in He. by injection He as -> ->.
  - rewrite (query_uninitialized q w vs Hvs Ht). simpl. split; [done|discriminate].
Qed.

End http_api.

Section startup.
Context `{L : Library}.
Implicit Types w : World.

Lemma create_vector_store_globals w : globals (App.create_vector_store w).2 = globals w.
Proof.
  unfold App.create_vector_store. unfold_py. simpl.
  repeat (step_call; [|reflexivity]). reflexivity.
Qed.

(** When lines 30-49 complete, [conversation] is bound and [vector_store]
    is bound to [None]. *)
Lemma init_conversation_binds w llm data_exists w1 :
  App.init_conversation w = (Returned (llm, data_exists), w1) →
  globals w1 !! "vector_store" = Some VNone ∧ is_Some (globals w1 !! "conversation").
Proof.
  unfold App.init_conversation. unfold_py. simpl.
  destruct (str_truthy _); simpl; [|discriminate].
  repeat (step_call; [|discriminate]).
  intros [= <- <- <-]. simpl. split.
  - by rewrite lookup_insert_eq.
  - rewrite lookup_insert_ne by done. rewrite lookup_insert_eq. by eexists.
Qed.

(** The [try] block of the start-up never raises, and never unbinds
    [vector_store]. *)
Lemma init_vector_store_returns llm w :
  is_Some (globals w !! "vector_store") →
  ∃ w', App.init_vector_store llm w = (Returned tt, w') ∧
        is_Some (globals w' !! "vector_store").
Proof.
  intros Hvs. unfold App.init_vector_store, try_except.
  unfold bind at 1.
  pose proof (create_vector_store_globals w) as Hg.
  destruct (App.create_vector_store w) as [[vs|e] w1]; simpl in Hg.
  - unfold_py. simpl.
    step_call; [|eexists; split; [reflexivity|]; simpl; by rewrite lookup_insert_eq].
    step_call; (eexists; split; [reflexivity|]); simpl.
    + rewrite lookup_insert_ne by done. by rewrite lookup_insert_eq.
    + by rewrite lookup_insert_eq.
  - unfold print. eexists; split; [reflexivity|]. simpl. by rewrite Hg.
Qed.

(** A server that started has [vector_store] bound, and keeps it bound
    while it serves requests. *)
Lemma module_init_binds_vector_store w w1 w2 :
  App.module_init w = (Returned tt, w1) → rtc serves w1 w2 →
  is_Some (globals w2 !! "vector_store").
Proof.
  intros Hinit Hserve. rewrite (serving_globals _ _ Hserve). clear Hserve w2.
  unfold App.module_init in Hinit. unfold bind at 1 in Hinit.
  destruct (App.init_conversation w) as [[[llm ex]|e] w0] eqn:Hc; [|discriminate].
  apply init_conversation_binds in Hc as [Hvs _].
  destruct (truthy ex).
  - destruct (init_vector_store_returns llm w0) as (w' & Hw' & Hb); [by rewrite Hvs|].
    rewrite Hw' in Hinit. by injection Hinit as <-.
  - unfold ret in Hinit. injection Hinit as <-. by rewrite Hvs.
Qed.

(** C2 (amended): without [OPENAI_API_KEY] (unset or empty) the module
    body of the HTTP API raises [ValueError] at once, before any library
    object is built, so the server never gets to serve a request.  The
    chat UI has no such check: with an empty key field,
    [initialize_langchain] shows a warning and returns [(None, None)]. *)
Theorem missing_api_key_stops_http_api w :
  str_truthy (environ w !! "OPENAI_API_KEY") = false →
  App.module_init w
  = (Raised (ValueError "OPENAI_API_KEY environment variable is not set"), w) ∧
  ∀ api_key v x,
    globals w !! "api_key" = Some api_key → truthy api_key = false →
    lib_call "st.warning" [VStr "Please enter your OpenAI API key in the sidebar."] []
      (environ w) (ext w) = (Returned v, x) →
    StreamlitApp.initialize_langchain w = (Returned (VNone, VNone), set_ext x w).
Proof.
  intros Hkey. split.
  - unfold App.module_init, App.init_conversation. unfold_py. simpl.
    rewrite Hkey. reflexivity.
  - intros api_key v x Hk Hf Hwarn.
    unfold StreamlitApp.initialize_langchain. unfold_py.
    rewrite Hk. simpl. rewrite Hf. simpl. rewrite Hwarn. reflexivity.
Qed.

(** C10 (amended): if the data directory exists and loading, splitting,
    embedding or [Chroma.from_documents] raises, so that no vector store
    is ever assigned, the start-up still completes: the error is printed,
    [vector_store] stays [None], and every later [POST /query] is
    answered by 400. *)
Theorem early_vector_store_failure_gives_400 w0 llm data_exists w1 e w2 :
  App.init_conversation w0 = (Returned (llm, data_exists), w1) →
  truthy data_exists = true →
  App.create_vector_store w1 = (Raised e, w2) →
  ∃ w3, App.module_init w0 = (Returned tt, w3) ∧
        stdout w3 = (stdout w2 ++ [("Error initializing vector store: " ++ py_str e)%string])%list ∧
        globals w3 !! "vector_store" = Some VNone ∧
        ∀ w4 q, rtc serves w3 w4 →
          App.query q w4 = (Raised (HTTPException 400 "Vector store not initialized"), w4).
Proof.
  intros Hc Hex Hvs.
  pose proof (create_vector_store_globals w1) as Hg. rewrite Hvs in Hg. simpl in Hg.
  apply init_conversation_binds in Hc as Hb. destruct Hb as [Hnone _].
  eexists. split; [|split; [|split]].
  - unfold App.module_init. unfold bind at 1. rewrite Hc, Hex.
    unfold App.init_vector_store, try_except. unfold bind at 1. rewrite Hvs.
    unfold print. reflexivity.
  - reflexivity.
  - simpl. by rewrite Hg.
  - intros w4 q Hserve. apply query_uninitialized with (vs := VNone); [|reflexivity].
    rewrite (serving_globals _ _ Hserve). simpl. by rewrite Hg.
Qed.

End startup.

Section handlers.
Context `{L : Library}.
Implicit Types (w : World) (event : gmap string PyVal).


(** The handler of [app.py] returns when the model does. *)
Lemma app_lambda_returns event context w conversation response x :
  globals w !! "conversation" = Some conversation →
  lib_method conversation "predict" [] [("input", dict_get event "message" (VStr ""))]
    (environ w) (ext w) = (Returned response, x) →
  App.lambda_handler event context w
  = (Returned (VDict {[ "statusCode" := VInt 200;
                        "body" := VDict {[ "response" := response;
                                           "session_id" := dict_get event "session_id"
                                                             (VStr "default") ]} ]}),
     set_ext x w).
Proof. intros Hc Hp. unfold_py. rewrite Hc. simpl. rewrite Hp. reflexivity. Qed.

(** C1: in a server that has started, at any later time, [POST /query]
    is answered by 400 exactly when [vector_store] is false ([None]);
    when it is true the answer is 200 or 500, never 400, and an error
    [e] of the retrieval chain is answered by 500 with detail [str(e)]. *)
Theorem query_400_iff_no_vector_store (q : App.QueryRequest) w0 w1 w :
  App.module_init w0 = (Returned tt, w1) → rtc serves w1 w →
  ∃ vs, globals w !! "vector_store" = Some vs ∧
    (http_status (App.query q w).1 = Some 400%Z ↔ truthy vs = false) ∧
    (truthy vs = true →
       (http_status (App.query q w).1 = Some 200%Z ∨
        http_status (App.query q w).1 = Some 500%Z) ∧
       ∀ e w', App.query_try q w = (Raised e, w') →
               App.query q w = (Raised (HTTPException 500 (py_str e)), w')).
Proof.
  intros Hinit Hserve.
  destruct (module_init_binds_vector_store w0 w1 w Hinit Hserve) as [vs Hvs].
  exists vs. split; [exact Hvs|]. by apply query_answers.
Qed.

(** C3 (amended): the handlers of the HTTP API let no exception out
    other than an [HTTPException]: in a server that has started, every
    request is answered by 200, 400 or 500, and whatever the call into
    the framework raises inside [POST /chat] or [POST /query] becomes a
    500 whose detail is [str(e)], whichever error it is. *)
Theorem http_handlers_convert_every_exception (r : Request) w0 w1 w :
  App.module_init w0 = (Returned tt, w1) → rtc serves w1 w →
  (∃ status, http_status (handle r w).1 = Some status ∧
             (status = 200 ∨ status = 400 ∨ status = 500)%Z) ∧
  (∀ request e w', App.chat_try request w = (Raised e, w') →
     App.chat request w = (Raised (HTTPException 500 (py_str e)), w')) ∧
  (∀ q vs e w', globals w !! "vector_store" = Some vs → truthy vs = true →
     App.query_try q w = (Raised e, w') →
     App.query q w = (Raised (HTTPException 500 (py_str e)), w')).
Proof.
  intros Hinit Hserve.
  destruct (module_init_binds_vector_store w0 w1 w Hinit Hserve) as [vs Hvs].
  split; [|split].
  - destruct r as [|request|q]; simpl.
    + exists 200%Z. auto.
    + unfold App.chat.
      destruct (try_500 (App.chat_try request) w) as [(v & w' & _ & ->)|(e & w' & _ & ->)].
      * exists 200%Z. auto.
      * exists 500%Z. auto.
    + destruct (query_status q w vs Hvs) as [[_ H]|[[_ H]|[_ H]]]; eauto 6.
  - intros request e w' He. unfold App.chat, try_except. by rewrite He.
  - intros q vs' e w' Hvs' Ht He.
    rewrite (query_initialized q w vs' Hvs' Ht). unfold try_except. by rewrite He.
Qed.

(** C6 (amended): the serverless handler of [app.py] returns exactly
    when the call [conversation.predict(input=message)] returns, with
    [message] the event's [message] ([""] when the event has none); its
    result is then the record with [statusCode] 200 and a [body] that is
    the record of the value that this call returned, as [response], and
    of the event's [session_id] (["default"] when the event has none);
    nothing but the state of the library has changed. *)
Theorem app_lambda_handler_result event context w v w' :
  App.lambda_handler event context w = (Returned v, w') ↔
  ∃ conversation response x,
    globals w !! "conversation" = Some conversation ∧
    lib_method conversation "predict" [] [("input", dict_get event "message" (VStr ""))]
      (environ w) (ext w) = (Returned response, x) ∧
    v = VDict {[ "statusCode" := VInt 200;
                 "body" := VDict {[ "response" := response;
                                    "session_id" := dict_get event "session_id"
                                                      (VStr "default") ]} ]} ∧
    w' = set_ext x w.
Proof.
  split.
  - unfold_py. destruct (globals w !! "conversation") as [conversation|]; simpl;
      [|discriminate].
    destruct (lib_method conversation _ _ _ _ _) as [[response|e] x] eqn:Hp; simpl;
      [|discriminate].
    intros [= <- <-]. by exists conversation, response, x.
  - intros (conversation & response & x & Hc & Hp & -> & ->).
    by apply app_lambda_returns with (conversation := conversation).
Qed.


End handlers.

(** * Further properties of the three scripts *)

Section keeping.
Context `{L : Library}.
Variable R : World → World → Prop.
Hypothesis R_refl : ∀ w, R w w.
Hypothesis R_trans : ∀ w1 w2 w3, R w1 w2 → R w2 w3 → R w1 w3.

Lemma keeps_ret {A} (a : A) : keeps R (ret a).
Proof. intros w. apply R_refl. Qed.

Lemma keeps_raise {A} e : keeps R (raise (A := A) e).
Proof. intros w. apply R_refl. Qed.

Lemma keeps_load name : keeps R (load_global name).
Proof. intros w. unfold load_global. destruct (globals w !! name); apply R_refl. Qed.

Lemma keeps_bind {A B} (m : M A) (k : A → M B) :
  keeps R m → (∀ a, keeps R (k a)) → keeps R (bind m k).
Proof.
  intros Hm Hk w. unfold bind. specialize (Hm w).
  destruct (m w) as [[a|e] w1]; simpl in *; [|exact Hm].
  eapply R_trans; [exact Hm|apply Hk].
Qed.

Lemma keeps_try {A} (body : M A) handler :
  keeps R body → (∀ e, keeps R (handler e)) → keeps R (try_except body handler).
Proof.
  intros Hm Hk w. unfold try_except. specialize (Hm w).
  destruct (body w) as [[a|e] w1]; simpl in *; [exact Hm|].
  eapply R_trans; [exact Hm|apply Hk].
Qed.

Lemma keeps_with {A} cm (body : M A) :
  keeps R (method cm "__enter__" [] []) →
  (∀ args, keeps R (method cm "__exit__" args [])) →
  keeps R body → keeps R (StreamlitApp.with_ cm body).
Proof.
  intros Hin Hout Hb. unfold StreamlitApp.with_.
  apply keeps_bind; [exact Hin|]. intros _ w. specialize (Hb w).
  destruct (body w) as [[a|e] w1]; simpl in *.
  - eapply R_trans; [exact Hb|].
    apply keeps_bind; [apply Hout|]. intros _. apply keeps_ret.
  - eapply R_trans; [exact Hb|].
    apply keeps_bind; [apply Hout|]. intros _. apply keeps_raise.
Qed.

Lemma keeps_for_each {A} (l : list A) body :
  (∀ a, keeps R (body a)) → keeps R (StreamlitApp.for_each l body).
Proof.
  intros Hb. induction l as [|a l IH]; simpl.
  - apply keeps_ret.
  - apply keeps_bind; [apply Hb|]. intros _. exact IH.
Qed.

End keeping.

(** One step of a proof of [keeps R m], by the shape of [m]; [rf] and [tr]
    prove that [R] is a preorder, [cl] and [mt] that calls keep it. *)
Ltac keeps_step rf tr cl mt :=
  match goal with
  | |- keeps _ (bind _ _) => apply (keeps_bind _ tr); [|intros ?]
  | |- keeps _ (ret _) => apply (keeps_ret _ rf)
  | |- keeps _ (raise _) => apply (keeps_raise _ rf)
  | |- keeps _ (try_except _ _) => apply (keeps_try _ tr); [|intros ?]
  | |- keeps _ (load_global _) => apply (keeps_load _ rf)
  | |- keeps _ (call _ _ _) => apply cl
  | |- keeps _ (method _ _ _ _) => apply mt
  | |- keeps _ (StreamlitApp.with_ _ _) =>
      apply (keeps_with _ rf tr); [|intros ?|]
  | |- keeps _ (StreamlitApp.for_each _ _) => apply (keeps_for_each _ rf tr); intros ?
  | |- keeps _ (if ?b then _ else _) => destruct b
  | |- keeps _ (match ?x with _ => _ end) => destruct x
  end.

Section process_state.
Context `{L : Library}.
Implicit Types w : World.

Lemma same_process_refl w : same_process w w.
Proof. by repeat split. Qed.

Lemma same_process_trans w1 w2 w3 :
  same_process w1 w2 → same_process w2 w3 → same_process w1 w3.
Proof. intros (?&?&?&?) (?&?&?&?). repeat split; congruence. Qed.

Lemma same_process_call f args kwargs : keeps same_process (call f args kwargs).
Proof. intros w. unfold call. destruct (lib_call _ _ _ _ _). by repeat split. Qed.

Lemma same_process_method self m args kwargs :
  keeps same_process (method self m args kwargs).
Proof. intros w. unfold method. destruct (lib_method _ _ _ _ _ _). by repeat split. Qed.

(** X1: no request handler and no serverless entry point writes an
    environment variable or rebinds a module global: [os.environ] and
    the globals are as before the call, whether it returns or raises. *)
Theorem handlers_keep_environ_and_globals :
  (∀ r w, same_names w (handle r w).2) ∧
  (∀ p event context w, same_names w (serverless p event context w).2).
Proof.
  assert (H1 : ∀ r, keeps same_process (handle r)).
  { intros r. destruct r as [|request|request]; simpl;
      unfold App.health_check, App.chat, App.chat_try, App.query, App.query_try;
      repeat keeps_step same_process_refl same_process_trans
                        same_process_call same_process_method. }
  assert (H2 : ∀ p event context, keeps same_process (serverless p event context)).
  { intros p event context. destruct p; simpl;
      unfold App.lambda_handler, DeployAws.lambda_handler, DeployAws.dumps;
      repeat keeps_step same_process_refl same_process_trans
                        same_process_call same_process_method. }
  split.
  - intros r w. destruct (H1 r w) as (He & Hg & _). by split.
  - intros p event context w. destruct (H2 p event context w) as (He & Hg & _). by split.
Qed.

End process_state.

Section startup_output.
Context `{L : Library}.
Implicit Types w : World.

Lemma quiet_refl w : quiet w w.
Proof. by repeat split. Qed.

Lemma quiet_trans w1 w2 w3 : quiet w1 w2 → quiet w2 w3 → quiet w1 w3.
Proof. intros (?&?&?) (?&?&?). repeat split; congruence. Qed.

Lemma quiet_call f args kwargs : keeps quiet (call f args kwargs).
Proof. intros w. unfold call. destruct (lib_call _ _ _ _ _). by repeat split. Qed.

Lemma quiet_method self m args kwargs : keeps quiet (method self m args kwargs).
Proof. intros w. unfold method. destruct (lib_method _ _ _ _ _ _). by repeat split. Qed.

Lemma quiet_store name v : keeps quiet (store_global name v).
Proof. intros w. by repeat split. Qed.

Ltac quiet_tac :=
  repeat first [ apply quiet_store
               | keeps_step quiet_refl quiet_trans quiet_call quiet_method ].

Lemma quiet_init_conversation : keeps quiet App.init_conversation.
Proof.
  unfold App.init_conversation, os_environ_get. apply (keeps_bind _ quiet_trans).
  - intros w. apply quiet_refl.
  - intros key. quiet_tac.
Qed.

Lemma quiet_create_vector_store : keeps quiet App.create_vector_store.
Proof. unfold App.create_vector_store. quiet_tac. Qed.

(** X2: the start-up of the HTTP API never writes the environment, and
    prints nothing or one line: the error of the vector store, after which
    it completes all the same. *)
Theorem module_init_prints_at_most_one_line w :
  environ (App.module_init w).2 = environ w ∧
  (stdout (App.module_init w).2 = stdout w ∨
   ∃ e, (App.module_init w).1 = Returned tt ∧
        stdout (App.module_init w).2
        = (stdout w ++ [("Error initializing vector store: " ++ py_str e)%string])%list).
Proof.
  destruct (App.module_init w) as [o w'] eqn:Hm. simpl.
  unfold App.module_init in Hm. unfold bind at 1 in Hm.
  pose proof (quiet_init_conversation w) as (He & _ & Ho).
  destruct (App.init_conversation w) as [[[llm ex]|e] w1]; simpl in *;
    [|injection Hm as <- <-; auto].
  destruct (truthy ex); simpl in Hm; [|injection Hm as <- <-; auto].
  unfold App.init_vector_store, try_except in Hm.
  match type of Hm with context [bind ?m ?k w1] => set (body := bind m k) in Hm end.
  assert (Hb : keeps quiet body) by (subst body; quiet_tac; apply quiet_create_vector_store).
  destruct (Hb w1) as (He' & _ & Ho').
  destruct (body w1) as [[[]|e] w2]; simpl in *.
  - injection Hm as <- <-. split; [congruence|left; congruence].
  - unfold print in Hm. injection Hm as <- <-. simpl.
    split; [congruence|right]. exists e. split; [reflexivity|]. by rewrite Ho', Ho.
Qed.

(** X3: on a server that started without printing an error and holds a
    vector store, the retrieval chain is bound, and [POST /query]
    answers with what [run] returns, or with a 500 for what it raises. *)
Theorem clean_start_answers_from_the_chain w0 w1 vs :
  App.module_init w0 = (Returned tt, w1) →
  stdout w1 = stdout w0 →
  globals w1 !! "vector_store" = Some vs → truthy vs = true →
  ∃ retrieval_qa,
    globals w1 !! "retrieval_qa" = Some retrieval_qa ∧
    ∀ w q r x, rtc serves w1 w →
      lib_method retrieval_qa "run" [VStr (App.query_text q)] [] (environ w) (ext w) = (r, x) →
      App.query q w
      = (match r with
         | Returned response => Returned (VDict {[ "response" := response ]})
         | Raised e => Raised (HTTPException 500 (py_str e))
         end, set_ext x w).
Proof.
  intros Hinit Hout Hvs Ht.
  assert (Hqa : is_Some (globals w1 !! "retrieval_qa")).
  { revert Hinit. unfold App.module_init. unfold bind at 1.
    pose proof (quiet_init_conversation w0) as (_ & _ & Ho).
    destruct (App.init_conversation w0) as [[[llm ex]|e] wa] eqn:Hc; [|discriminate].
    simpl in Ho. apply init_conversation_binds in Hc as [Hnone _].
    destruct (truthy ex).
    2:{ intros [= <-]. rewrite Hnone in Hvs. injection Hvs as <-. discriminate. }
    unfold App.init_vector_store, try_except. unfold bind at 1.
    pose proof (quiet_create_vector_store wa) as (_ & _ & Ho').
    destruct (App.create_vector_store wa) as [[v|e] wb]; simpl in Ho'.
    2:{ unfold print. intros [= <-]. simpl in Hout.
        rewrite Ho', Ho in Hout. apply (f_equal length) in Hout.
        rewrite length_app in Hout. simpl in Hout. lia. }
    unfold bind, store_global, method, call, print. simpl.
    destruct (lib_method v _ _ _ _ _) as [[retr|e] x1]; simpl.
    2:{ intros [= <-]. simpl in Hout. rewrite Ho', Ho in Hout.
        apply (f_equal length) in Hout. rewrite length_app in Hout. simpl in Hout. lia. }
    destruct (lib_call _ _ _ _ _) as [[qa|e] x2]; simpl.
    2:{ intros [= <-]. simpl in Hout. rewrite Ho', Ho in Hout.
        apply (f_equal length) in Hout. rewrite length_app in Hout. simpl in Hout. lia. }
    intros [= <-]. simpl. rewrite lookup_insert_eq. by eexists. }
  destruct Hqa as [qa Hqa]. exists qa. split; [exact Hqa|].
  intros w q r x Hserve Hrun.
  pose proof (serving_globals _ _ Hserve) as Hg.
  rewrite (query_initialized q w vs); [|by rewrite Hg|exact Ht].
  unfold try_except, App.query_try, bind, load_global, method, ret, raise.
  rewrite Hg, Hqa. simpl. rewrite Hrun. by destruct r.
Qed.

End startup_output.

Section serverless_events.
Context `{L : Library}.
Implicit Types (w : World) (event : gmap string PyVal).

(** X5: a serverless handler reads its event only through
    [event.get("message", "")] and [event.get("session_id", "default")]:
    other keys and the context do not matter, and a missing message is
    the empty string. *)
Theorem lambda_handler_reads_message_and_session_id p event1 context1 event2 context2 w :
  dict_get event1 "message" (VStr "") = dict_get event2 "message" (VStr "") →
  dict_get event1 "session_id" (VStr "default")
  = dict_get event2 "session_id" (VStr "default") →
  serverless p event1 context1 w = serverless p event2 context2 w.
Proof.
  intros Hm Hs. destruct p; simpl;
    unfold App.lambda_handler, DeployAws.lambda_handler; by rewrite Hm, Hs.
Qed.

(** X6: the handler of [app.py] and [POST /chat] run the same conversation:
    where the route returns a body, the handler returns it under
    [statusCode] 200; where the handler raises, the route answers 500
    with the text of that error. *)
Theorem app_lambda_handler_agrees_with_chat event context request w :
  event !! "message" = Some (VStr (App.message request)) →
  dict_get event "session_id" (VStr "default")
  = App.str_or_None (App.session_id request) →
  (∀ body w', App.chat request w = (Returned body, w') →
     App.lambda_handler event context w
     = (Returned (VDict {[ "statusCode" := VInt 200; "body" := body ]}), w')) ∧
  (∀ e w', App.lambda_handler event context w = (Raised e, w') →
     App.chat request w = (Raised (HTTPException 500 (py_str e)), w')).
Proof.
  intros Hm Hs.
  assert (Hm' : dict_get event "message" (VStr "") = VStr (App.message request))
    by (unfold dict_get; by rewrite Hm).
  unfold App.lambda_handler, App.chat, App.chat_try, try_except, bind, load_global,
    method, ret, raise.
  rewrite Hm', Hs.
  destruct (globals w !! "conversation") as [c|]; simpl.
  - destruct (lib_method c _ _ _ _ _) as [[r|e0] x]; simpl; split;
      intros ? ? [= <- <-]; reflexivity.
  - split; intros ? ? [= <- <-]; reflexivity.
Qed.

End serverless_events.

Section call_log.
Context {L : Library}.
Implicit Types w : World (L := logged L).

Lemma calls_call f args kwargs w :
  calls (call f args kwargs w).2 = (calls w ++ [f])%list.
Proof. reflexivity. Qed.

Lemma calls_method self m args kwargs w :
  calls (method self m args kwargs w).2 = (calls w ++ [m])%list.
Proof. reflexivity. Qed.

(** X7: no retry, no second call: [GET /health] calls nothing, [POST /chat]
    calls [predict] once on a server whose conversation chain is bound,
    [POST /query] calls [run] at most once, whether the call returns or
    raises. *)
Theorem one_library_call_per_request (r : Request) w :
  is_Some (globals w !! "conversation") →
  calls (handle r w).2
  = (calls w ++ match r with
                | GetHealth => []
                | PostChat _ => ["predict"]
                | PostQuery _ =>
                    match globals w !! "vector_store", globals w !! "retrieval_qa" with
                    | Some vs, Some _ => if truthy vs then ["run"] else []
                    | _, _ => []
                    end
                end)%list.
Proof.
  intros [c Hc]. destruct r as [|request|q]; simpl.
  - unfold App.health_check, ret. simpl. by rewrite app_nil_r.
  - unfold App.chat, App.chat_try, try_except, bind, load_global. rewrite Hc.
    match goal with |- context [method ?s ?m ?a ?k w] =>
      pose proof (calls_method s m a k w) as Hlog;
      destruct (method s m a k w) as [[v|e] w1] end; exact Hlog.
  - unfold App.query, App.query_try, try_except, bind, load_global.
    destruct (globals w !! "vector_store") as [vs|]; simpl; [|by rewrite app_nil_r].
    destruct (globals w !! "retrieval_qa") as [qa|] eqn:Hqa; simpl.
    + destruct (truthy vs); simpl; [|by rewrite app_nil_r]. rewrite Hqa.
      unfold method, calls. simpl.
      by destruct (lib_method qa _ _ _ _ _) as [[v|e] x].
    + destruct (truthy vs); simpl; [|by rewrite app_nil_r]. rewrite Hqa. simpl.
      by rewrite app_nil_r.
Qed.

(** X8: [deploy_aws.lambda_handler] stops at the first of its calls that
    raises.  It calls [Bedrock], [DynamoDBChatMessageHistory],
    [ConversationChain] and [predict] in this order, each with what the
    calls before it returned; when one of them raises, the handler
    raises that very exception, and the calls made are those up to and
    including the one that raised: nothing is caught, nothing is tried
    again, no later call is made. *)
Theorem deploy_lambda_stops_at_first_error event context w :
  let session_id := dict_get event "session_id" (VStr "default") in
  let bedrock :=
    @lib_call L "Bedrock" []
      [("model_id", VStr "anthropic.claude-v2"); ("region_name", VStr "us-east-1")]
      (environ w) in
  let history :=
    @lib_call L "DynamoDBChatMessageHistory" []
      [("table_name", VStr "langchain-chat-history"); ("session_id", session_id)]
      (environ w) in
  let chain llm message_history :=
    @lib_call L "ConversationChain" [] [("llm", llm); ("memory", message_history)]
      (environ w) in
  let predict conversation :=
    @lib_method L conversation "predict" []
      [("input", dict_get event "message" (VStr ""))] (environ w) in
  let stopped e (x : @Ext L) (n : nat) :=
    DeployAws.lambda_handler event context w
    = (Raised e,
       set_ext ((x, (calls w ++ take n ["Bedrock"; "DynamoDBChatMessageHistory";
                                        "ConversationChain"; "predict"])%list)
                : @Ext (logged L)) w) in
  (∀ e x1, bedrock (ext w).1 = (Raised e, x1) → stopped e x1 1%nat) ∧
  (∀ llm x1 e x2,
     bedrock (ext w).1 = (Returned llm, x1) →
     history x1 = (Raised e, x2) → stopped e x2 2%nat) ∧
  (∀ llm x1 message_history x2 e x3,
     bedrock (ext w).1 = (Returned llm, x1) →
     history x1 = (Returned message_history, x2) →
     chain llm message_history x2 = (Raised e, x3) → stopped e x3 3%nat) ∧
  (∀ llm x1 message_history x2 conversation x3 e x4,
     bedrock (ext w).1 = (Returned llm, x1) →
     history x1 = (Returned message_history, x2) →
     chain llm message_history x2 = (Returned conversation, x3) →
     predict conversation x3 = (Raised e, x4) → stopped e x4 4%nat).
Proof.
  simpl. unfold DeployAws.lambda_handler, DeployAws.dumps, bind, call, method, calls, set_ext.
  simpl. repeat split.
  - intros e x1 H1. by rewrite H1.
  - intros llm x1 e x2 H1 H2. rewrite H1. simpl. rewrite H2. simpl.
    by rewrite <- app_assoc.
  - intros llm x1 h x2 e x3 H1 H2 H3. rewrite H1. simpl. rewrite H2. simpl.
    rewrite H3. simpl. by rewrite <- !app_assoc.
  - intros llm x1 h x2 c x3 e x4 H1 H2 H3 H4. rewrite H1. simpl. rewrite H2. simpl.
    rewrite H3. simpl. rewrite H4. simpl. by rewrite <- !app_assoc.
Qed.

End call_log.

Ltac unfold_streamlit :=
  unfold StreamlitApp.script, StreamlitApp.render_page, StreamlitApp.chat_section,
    StreamlitApp.rag_section, StreamlitApp.initialize_rag,
    StreamlitApp.initialize_langchain.

(** Steps of the script that are neither calls nor control flow. *)
Ltac plain_step same :=
  match goal with
  | |- keeps _ (store_global _ _) => idtac
  | |- keeps _ (os_environ_set _ _) => idtac
  | |- keeps _ (StreamlitApp.subscript _ _) => idtac
  | |- keeps _ StreamlitApp.session_messages => idtac
  | |- keeps _ (StreamlitApp.set_session_messages _) => idtac
  | |- keeps _ (λ w, match session_state w !! _ with _ => _ end) => idtac
  end;
  apply same; intros ?;
  unfold os_environ_set, StreamlitApp.subscript, StreamlitApp.session_messages;
  repeat match goal with
         | |- context [match ?x with _ => _ end] => destruct x
         end;
  by repeat split.

Section chat_ui_frame.
Context `{L : Library}.
Implicit Types w : World.

Lemma history_grows_refl w : history_grows w w.
Proof. intros l Hl. exists []. by rewrite app_nil_r. Qed.

Lemma history_grows_trans w1 w2 w3 :
  history_grows w1 w2 → history_grows w2 w3 → history_grows w1 w3.
Proof.
  intros H12 H23 l Hl. destruct (H12 l Hl) as (l1 & Hl1 & Hf1).
  destruct (H23 _ Hl1) as (l2 & Hl2 & Hf2).
  exists (l1 ++ l2)%list. rewrite app_assoc. split; [exact Hl2|by apply Forall_app].
Qed.

(** A step that leaves the session state alone. *)
Lemma history_grows_same {A} (m : M A) :
  (∀ w, session_state (m w).2 = session_state w) → keeps history_grows m.
Proof. intros Hm w l Hl. exists []. by rewrite app_nil_r, Hm. Qed.

Lemma history_grows_call f args kwargs : keeps history_grows (call f args kwargs).
Proof. apply history_grows_same. intros w. unfold call. by destruct (lib_call _ _ _ _ _). Qed.

Lemma history_grows_method self m args kwargs :
  keeps history_grows (method self m args kwargs).
Proof.
  apply history_grows_same. intros w. unfold method. by destruct (lib_method _ _ _ _ _ _).
Qed.

Lemma history_grows_append role content :
  role = "user" ∨ role = "assistant" →
  keeps history_grows (StreamlitApp.append_message role content).
Proof.
  intros Hrole w l Hl.
  unfold StreamlitApp.append_message, bind, StreamlitApp.session_messages.
  rewrite Hl. simpl. rewrite lookup_insert_eq. eexists. split; [reflexivity|].
  apply Forall_singleton. by exists role, content.
Qed.

Lemma environ_but_refl key w : environ_but key w w.
Proof. by intros name Hne. Qed.

Lemma environ_but_trans key w1 w2 w3 :
  environ_but key w1 w2 → environ_but key w2 w3 → environ_but key w1 w3.
Proof.
  intros H12 H23 name Hne. by rewrite H23, H12.
Qed.

Lemma environ_but_same key {A} (m : M A) :
  (∀ w, environ (m w).2 = environ w) → keeps (environ_but key) m.
Proof. intros Hm w name Hne. by rewrite Hm. Qed.

Lemma environ_but_call key f args kwargs : keeps (environ_but key) (call f args kwargs).
Proof. apply environ_but_same. intros w. unfold call. by destruct (lib_call _ _ _ _ _). Qed.

Lemma environ_but_method key self m args kwargs :
  keeps (environ_but key) (method self m args kwargs).
Proof.
  apply environ_but_same. intros w. unfold method. by destruct (lib_method _ _ _ _ _ _).
Qed.

Lemma environ_but_set key v : keeps (environ_but key) (os_environ_set key v).
Proof.
  intros w. unfold os_environ_set. destruct v; try apply environ_but_refl.
  destruct (has_nul s); [apply environ_but_refl|].
  intros name Hne. simpl. by rewrite lookup_insert_ne.
Qed.

(** The first run creates the history; a later one leaves it alone. *)
Lemma history_grows_init :
  keeps history_grows
    (λ w, match session_state w !! "messages" with
          | Some _ => (Returned (), w)
          | None => StreamlitApp.set_session_messages [] w
          end).
Proof.
  intros w l Hl. rewrite Hl. exists []. by rewrite app_nil_r.
Qed.

(** X9: the chat history is append-only: whatever the library does, and
    also when the run is cut short by an error, the history after a run
    of the script is the history before it followed by new entries, each
    a [{role, content}] record with role ["user"] or ["assistant"]. *)
Theorem chat_history_is_append_only w l :
  session_state w !! "messages" = Some (VList l) →
  ∃ l', session_state (StreamlitApp.script w).2 !! "messages" = Some (VList (l ++ l')%list) ∧
        Forall chat_message l'.
Proof.
  revert w l. change (keeps history_grows StreamlitApp.script).
  unfold_streamlit.
  repeat first
    [ apply history_grows_append; auto
    | apply history_grows_init
    | keeps_step history_grows_refl history_grows_trans
                 history_grows_call history_grows_method
    | plain_step (@history_grows_same) ].
Qed.


(** X10: the only environment variable that the statements of the script
    may write is [OPENAI_API_KEY]: after a run every other variable is
    as before, also when the run is cut short by an error. *)
Theorem script_writes_only_the_api_key w name :
  name ≠ "OPENAI_API_KEY" →
  environ (StreamlitApp.script w).2 !! name = environ w !! name.
Proof.
  intros Hne. revert w name Hne.
  change (keeps (environ_but "OPENAI_API_KEY") StreamlitApp.script).
  unfold_streamlit. unfold StreamlitApp.append_message.
  repeat first
    [ apply environ_but_set
    | keeps_step (environ_but_refl "OPENAI_API_KEY") (environ_but_trans "OPENAI_API_KEY")
                 (environ_but_call "OPENAI_API_KEY") (environ_but_method "OPENAI_API_KEY")
    | plain_step (@environ_but_same "OPENAI_API_KEY") ].
Qed.

End chat_ui_frame.

Section key_discipline.
Context {L : Library}.
Implicit Types w : World (L := logged L).

Lemma no_model_call_refl w : no_model_call w w.
Proof. exists []. by rewrite app_nil_r. Qed.

Lemma no_model_call_trans w1 w2 w3 :
  no_model_call w1 w2 → no_model_call w2 w3 → no_model_call w1 w3.
Proof.
  intros (l1 & H1 & F1) (l2 & H2 & F2). exists (l1 ++ l2)%list.
  split; [by rewrite H2, H1, app_assoc|by apply Forall_app].
Qed.

Lemma no_model_call_call f args kwargs :
  model_call f = false → keeps no_model_call (call f args kwargs).
Proof. intros Hf w. exists [f]. split; [reflexivity|by apply Forall_singleton]. Qed.

Lemma no_model_call_method self m args kwargs :
  model_call m = false → keeps no_model_call (method self m args kwargs).
Proof. intros Hf w. exists [m]. split; [reflexivity|by apply Forall_singleton]. Qed.

Lemma no_model_call_same {A} (m : M (L := logged L) A) :
  (∀ w, ext (m w).2 = ext w) → keeps no_model_call m.
Proof. intros Hm w. exists []. unfold calls. by rewrite Hm, app_nil_r. Qed.

Lemma render_page_needs_no_key :
  keeps no_model_call (StreamlitApp.render_page (L := logged L)).
Proof.
  unfold StreamlitApp.render_page.
  repeat first
    [ apply no_model_call_call; reflexivity
    | apply no_model_call_method; reflexivity
    | keeps_step no_model_call_refl no_model_call_trans I I
    | plain_step (@no_model_call_same) ].
Qed.

Section from_globals.
Variable g : gmap string PyVal.

Lemma guarded_refl w : guarded g w w.
Proof.
  intros Hg. split; [exact Hg|]. exists []. split; [by rewrite app_nil_r|].
  intros H. by apply Exists_nil in H.
Qed.

Lemma guarded_trans w1 w2 w3 : guarded g w1 w2 → guarded g w2 w3 → guarded g w1 w3.
Proof.
  intros H12 H23 Hg. destruct (H12 Hg) as (Hg2 & l1 & Hl1 & Hk1).
  destruct (H23 Hg2) as (Hg3 & l2 & Hl2 & Hk2).
  split; [exact Hg3|]. exists (l1 ++ l2)%list. split; [by rewrite Hl2, Hl1, app_assoc|].
  intros [H|H]%Exists_app; auto.
Qed.

Lemma guarded_call f args kwargs :
  model_call f = false ∨ key_entered (L := logged L) g →
  keeps (guarded g) (call f args kwargs).
Proof.
  intros Hf w Hg. split; [exact Hg|]. exists [f]. split; [reflexivity|].
  intros Hex. apply Exists_cons in Hex as [Hex|Hex]; [|by apply Exists_nil in Hex].
  destruct Hf as [Hf|Hf]; [congruence|exact Hf].
Qed.

Lemma guarded_method self m args kwargs :
  model_call m = false ∨ key_entered (L := logged L) g →
  keeps (guarded g) (method self m args kwargs).
Proof.
  intros Hf w Hg. split; [exact Hg|]. exists [m]. split; [reflexivity|].
  intros Hex. apply Exists_cons in Hex as [Hex|Hex]; [|by apply Exists_nil in Hex].
  destruct Hf as [Hf|Hf]; [congruence|exact Hf].
Qed.

Lemma guarded_same {A} (m : M (L := logged L) A) :
  (∀ w, globals (m w).2 = globals w ∧ ext (m w).2 = ext w) → keeps (guarded g) m.
Proof.
  intros Hm w Hg. destruct (Hm w) as [Hgl Hx]. split; [congruence|].
  exists []. unfold calls. rewrite Hx, app_nil_r. split; [reflexivity|].
  intros H. by apply Exists_nil in H.
Qed.

(** Reading a global: the continuation runs on the value that [g] has. *)
Lemma guarded_load {B} name (k : PyVal → M (L := logged L) B) :
  (∀ v, g !! name = Some v → keeps (guarded g) (k v)) →
  keeps (guarded g) (bind (load_global name) k).
Proof.
  intros Hk w Hg. unfold bind, load_global.
  destruct (globals w !! name) as [v|] eqn:Hv; simpl.
  - apply Hk; [by rewrite <- Hg|exact Hg].
  - by apply guarded_refl.
Qed.

(** Sequencing, with a fact about the value that the first part returns. *)
Lemma guarded_bind_val {A B} (Q : A → Prop) (m : M (L := logged L) A)
    (k : A → M (L := logged L) B) :
  keeps (guarded g) m →
  (∀ w a w', globals w = g → m w = (Returned a, w') → Q a) →
  (∀ a, Q a → keeps (guarded g) (k a)) →
  keeps (guarded g) (bind m k).
Proof.
  intros Hm HQ Hk w Hg. unfold bind.
  specialize (Hm w). specialize (HQ w).
  destruct (m w) as [[a|e] w1]; simpl in *; [|by apply Hm].
  eapply guarded_trans; [exact Hm|apply Hk; by eapply HQ|exact Hg].
Qed.

End from_globals.
End key_discipline.

(** The side condition of a call: it needs no key, or the key is there. *)
Ltac key_side :=
  first [ left; reflexivity
        | right;
          first [ assumption
                | eexists; split; [eassumption|assumption]
                | match goal with H : _ → key_entered _ |- _ => apply H; auto end ] ].

Section key_guard.
Context {L : Library}.
Variable g : gmap string PyVal.
Implicit Types w : World (L := logged L).

Ltac guarded_leaf :=
  first
    [ apply guarded_call; key_side
    | apply guarded_method; key_side
    | match goal with
      | |- keeps _ (bind (load_global _) _) => apply guarded_load; intros ? ?
      | |- keeps _ (if negb (truthy ?v) then _ else _) => destruct (truthy v) eqn:?; simpl
      | |- keeps _ (if truthy ?v then _ else _) => destruct (truthy v) eqn:?
      end ].

Ltac guarded_rest :=
  first [ keeps_step (guarded_refl g) (guarded_trans g) I I
        | plain_step (@guarded_same L g) ].

Lemma guarded_initialize_langchain :
  keeps (guarded g) (StreamlitApp.initialize_langchain (L := logged L)).
Proof.
  unfold StreamlitApp.initialize_langchain. repeat first [ guarded_leaf | guarded_rest ].
Qed.

(** [initialize_langchain] returns a model or a chain only with a key. *)
Lemma initialize_langchain_value w chat_model conversation w' :
  globals w = g →
  StreamlitApp.initialize_langchain w = (Returned (chat_model, conversation), w') →
  truthy (L := logged L) chat_model = true ∨ truthy (L := logged L) conversation = true →
  key_entered (L := logged L) g.
Proof.
  intros Hg. unfold StreamlitApp.initialize_langchain, bind, load_global. rewrite Hg.
  destruct (g !! "api_key") as [k|] eqn:Hk; simpl; [|discriminate].
  destruct (truthy k) eqn:Ht; simpl; [intros _ _; by exists k|].
  unfold call, ret. simpl. destruct (lib_call _ _ _ _ _).1; [|discriminate].
  intros [= <- <- _] [H|H]; discriminate.
Qed.

(** [initialize_rag] returns a retrieval chain only with a key. *)
Lemma initialize_rag_value w retrieval_qa w' :
  globals w = g →
  StreamlitApp.initialize_rag w = (Returned retrieval_qa, w') →
  truthy (L := logged L) retrieval_qa = true →
  key_entered (L := logged L) g.
Proof.
  intros Hg. unfold StreamlitApp.initialize_rag. unfold bind at 1. unfold load_global.
  rewrite Hg. destruct (g !! "api_key") as [k|] eqn:Hk; simpl; [|discriminate].
  destruct (truthy k) eqn:Ht; simpl; [intros _ _; by exists k|].
  unfold ret. intros [= <- _]. discriminate.
Qed.

Ltac guarded_tac :=
  repeat first
    [ guarded_leaf
    | match goal with
      | |- keeps _ (bind StreamlitApp.initialize_langchain _) =>
          apply (guarded_bind_val g
                   (λ a, truthy (L := logged L) a.1 = true ∨
                         truthy (L := logged L) a.2 = true →
                         key_entered (L := logged L) g));
          [ apply guarded_initialize_langchain
          | intros ? [? ?] ? ? ?; eapply initialize_langchain_value; eauto
          | intros [? ?] ?; simpl in * ]
      end
    | guarded_rest ].

Lemma guarded_initialize_rag :
  keeps (guarded g) (StreamlitApp.initialize_rag (L := logged L)).
Proof.
  unfold StreamlitApp.initialize_rag. guarded_tac.
Qed.

Lemma guarded_chat_section :
  keeps (guarded g) (StreamlitApp.chat_section (L := logged L)).
Proof.
  unfold StreamlitApp.chat_section, StreamlitApp.append_message.
  guarded_tac.
Qed.

Lemma guarded_rag_section :
  keeps (guarded g) (StreamlitApp.rag_section (L := logged L)).
Proof.
  unfold StreamlitApp.rag_section.
  do 3 (guarded_rest; [guarded_leaf|]). guarded_leaf; [|guarded_rest].
  apply (guarded_bind_val g (λ v, truthy (L := logged L) v = true →
                                  key_entered (L := logged L) g)).
  - apply guarded_initialize_rag.
  - intros ? ? ? ? ?. eapply initialize_rag_value; eauto.
  - intros retrieval_qa Hqa. guarded_tac.
Qed.

End key_guard.

Section key_theorem.
Context {L : Library}.
Implicit Types w : World (L := logged L).

(** X14: the chat UI never uses the model without a key: if a run of the
    script builds the chat model or the embedding client, or calls
    [predict] or [run], then the key field of the sidebar was filled in
    when the script read it in this run. *)
Theorem no_model_call_without_a_key w :
  ∃ l, calls (StreamlitApp.script w).2 = (calls w ++ l)%list ∧
       (Exists (λ f, model_call f = true) l →
        key_entered (L := logged L) (globals (StreamlitApp.script w).2)).
Proof.
  destruct (StreamlitApp.script w) as [o w2] eqn:Hs. simpl.
  unfold StreamlitApp.script in Hs. unfold bind at 1 in Hs.
  destruct (render_page_needs_no_key w) as (l1 & Hl1 & F1).
  destruct (StreamlitApp.render_page w) as [[[]|e] w1]; simpl in *.
  - match type of Hs with ?rest w1 = _ =>
      assert (Hrest : keeps (guarded (globals w1)) rest)
    end.
    { apply (keeps_bind _ (guarded_trans _)); [apply guarded_chat_section|intros _].
      apply (keeps_bind _ (guarded_trans _)); [apply guarded_rag_section|intros _].
      repeat first [ apply guarded_call; left; reflexivity
                   | keeps_step (guarded_refl (L := L) (globals w1))
                                (guarded_trans (L := L) (globals w1)) I I ]. }
    specialize (Hrest w1 eq_refl). rewrite Hs in Hrest. simpl in Hrest.
    destruct Hrest as (Hg & l2 & Hl2 & Hk).
    exists (l1 ++ l2)%list. split; [by rewrite Hl2, Hl1, app_assoc|].
    intros [H|H]%Exists_app; [|rewrite Hg; auto].
    apply Exists_exists in H as (f & Hf & Hm). rewrite Forall_forall in F1.
    rewrite (F1 f Hf) in Hm. discriminate.
  - injection Hs as <- <-. exists l1. split; [exact Hl1|].
    intros H. apply Exists_exists in H as (f & Hf & Hm). rewrite Forall_forall in F1.
    rewrite (F1 f Hf) in Hm. discriminate.
Qed.

End key_theorem.

(** Running a script in a hypothesis [H : m w = (Returned _, _)]: case
    analysis on each call and each test, dropping the runs that raise. *)
Ltac exec_in H :=
  repeat (simpl in H;
          match type of H with
          | (Raised _, _) = (Returned _, _) => discriminate H
          | context [lib_call ?f ?a ?k ?v ?x] =>
              destruct (lib_call f a k v x) as [[?|?] ?] eqn:?
          | context [lib_method ?s ?m ?a ?k ?v ?x] =>
              destruct (lib_method s m a k v x) as [[?|?] ?] eqn:?
          | context [if negb (truthy ?v) then _ else _] => destruct (truthy v) eqn:?
          | context [if truthy ?v then _ else _] => destruct (truthy v) eqn:?
          end).

Section sidebar.
Context `{L : Library}.
Implicit Types w : World.

Lemma same_names_refl w : same_names w w.
Proof. by split. Qed.

Lemma same_names_trans w1 w2 w3 : same_names w1 w2 → same_names w2 w3 → same_names w1 w3.
Proof. intros [] []. split; congruence. Qed.

Lemma same_names_same {A} (m : M A) :
  (∀ w, globals (m w).2 = globals w ∧ environ (m w).2 = environ w) → keeps same_names m.
Proof. intros Hm w. apply Hm. Qed.

Lemma same_names_call f args kwargs : keeps same_names (call f args kwargs).
Proof. intros w. unfold call. by destruct (lib_call _ _ _ _ _). Qed.

Lemma same_names_method self m args kwargs : keeps same_names (method self m args kwargs).
Proof. intros w. unfold method. by destruct (lib_method _ _ _ _ _ _). Qed.

(** X11: when the page has been rendered, the global [api_key] holds the
    value that the call [st.text_input("OpenAI API Key", type="password")]
    returned during that run; if that value is true it is a string
    without a NUL character and the environment is the one before the
    run with [OPENAI_API_KEY] set to it, and if not the environment is as
    it was. *)
Theorem sidebar_key_is_exported w w' :
  StreamlitApp.render_page w = (Returned tt, w') →
  ∃ api_key x x',
    lib_call "st.text_input" [VStr "OpenAI API Key"] [("type", VStr "password")]
      (environ w) x = (Returned api_key, x') ∧
    globals w' !! "api_key" = Some api_key ∧
    if truthy api_key
    then ∃ s, api_key = VStr s ∧ has_nul s = false ∧
              environ w' = <["OPENAI_API_KEY" := s]> (environ w)
    else environ w' = environ w.
Proof.
  intros H. unfold StreamlitApp.render_page in H.
  match type of H with context [bind StreamlitApp.session_messages ?k] =>
    set (replay := bind StreamlitApp.session_messages k) in H;
    assert (Hreplay : keeps same_names replay)
  end.
  { subst replay.
    repeat first [ keeps_step same_names_refl same_names_trans
                              same_names_call same_names_method
                 | apply same_names_call | apply same_names_method
                 | plain_step (@same_names_same) ]. }
  unfold StreamlitApp.with_, bind, call, method, store_global, ret, raise in H.
  exec_in H.
  all: unfold os_environ_set in H;
    repeat match type of H with
           | context [match ?v with VStr _ => _ | _ => _ end] => destruct v; simpl in H
           | context [if has_nul ?s then _ else _] => destruct (has_nul s) eqn:?; simpl in H
           | (Raised _, _) = (Returned _, _) => discriminate H
           end;
    exec_in H.
  all: match type of H with context [session_state ?w0 !! "messages"] =>
         destruct (session_state w0 !! "messages") end;
    unfold StreamlitApp.set_session_messages in H; simpl in H.
  all: match type of H with _ ?w0 = (Returned (), _) =>
         destruct (Hreplay w0) as [Hg He]; rewrite H in Hg, He; simpl in Hg, He
       end.
  all: eexists; eexists; eexists; (split; [eassumption|]); split;
    [ rewrite Hg; rewrite lookup_insert_ne by done; rewrite lookup_insert_ne by done;
      by rewrite lookup_insert_eq |].
  all: match goal with Ht : truthy _ = _ |- _ => rewrite Ht end; eauto.
Qed.

End sidebar.

Section chat_turn.
Context `{L : Library}.
Implicit Types w : World.

(** X12: a chat turn that completes records the user's message at the end
    of the history, followed by at most one reply of the assistant; with
    the key field empty there is no reply, and with no input the history
    is left as it was. *)
Theorem chat_turn_is_recorded w w' l :
  session_state w !! "messages" = Some (VList l) →
  StreamlitApp.chat_section w = (Returned tt, w') →
  ∃ prompt x,
    lib_call "st.chat_input" [VStr "What would you like to know?"] [] (environ w) (ext w)
    = (Returned prompt, x) ∧
    if truthy prompt then
      ∃ tail,
        session_state w' !! "messages" = Some (VList (l ++ user_message prompt :: tail)%list) ∧
        (tail = [] ∨ ∃ response, tail = [assistant_message response]) ∧
        (¬ key_entered (globals w) → tail = [])
    else session_state w' = session_state w.
Proof.
  intros Hl H.
  unfold StreamlitApp.chat_section, StreamlitApp.append_message,
    StreamlitApp.session_messages, StreamlitApp.set_session_messages,
    StreamlitApp.initialize_langchain, StreamlitApp.with_,
    bind, call, method, load_global, ret, raise in H.
  repeat (simpl in H;
          first [ rewrite Hl in H
                | rewrite lookup_insert_eq in H
                | match type of H with
                  | (Raised _, _) = (Returned _, _) => discriminate H
                  | context [lib_call ?f ?a ?k ?v ?x] =>
                      destruct (lib_call f a k v x) as [[?|?] ?] eqn:?
                  | context [lib_method ?s ?m ?a ?k ?v ?x] =>
                      destruct (lib_method s m a k v x) as [[?|?] ?] eqn:?
                  | context [if negb (truthy ?v) then _ else _] => destruct (truthy v) eqn:?
                  | context [if truthy ?v then _ else _] => destruct (truthy v) eqn:?
                  | context [globals ?w0 !! ?n] => destruct (globals w0 !! n) eqn:?
                  end ]).
  all: injection H as <-; simpl; eexists _, _; (split; [reflexivity|]).
  all: match goal with
       | Ht : truthy ?a = _ |- context [if truthy ?a then _ else _] => rewrite Ht
       end; try reflexivity.
  all: first
    [ solve [ exists []; split; [by rewrite lookup_insert_eq|]; split; [by left|done] ]
    | solve [ eexists [assistant_message _]; split;
              [ rewrite lookup_insert_eq, <- app_assoc; reflexivity |];
              split; [right; eauto|];
              intros Hn; destruct Hn; eexists; split; eassumption ] ].
Qed.
End chat_turn.

Section rag_errors.
Context `{L : Library}.
Implicit Types w : World.

(** X13: [initialize_rag] lets no error of the embedding client, of the
    vector store or of the chain out: an exception leaves it only from
    the unbound name [api_key], from the test of the data directory, or
    from [st.error] while it reports the error it caught. *)
Theorem initialize_rag_reports_errors w e w' :
  StreamlitApp.initialize_rag w = (Raised e, w') →
  (globals w !! "api_key" = None ∧ e = NameError "api_key") ∨
  (∃ x, lib_call "os.path.exists" [VStr "data"] [] (environ w) (ext w) = (Raised e, x)) ∨
  (∃ cause x x',
     lib_call "st.error" [VStr ("Error initializing RAG: " ++ py_str cause)] []
       (environ w) x = (Raised e, x')).
Proof.
  intros H.
  unfold StreamlitApp.initialize_rag, StreamlitApp.initialize_langchain,
    try_except, bind, call, method, load_global, ret, raise in H.
  repeat (simpl in H;
          match type of H with
          | (Returned _, _) = (Raised _, _) => discriminate H
          | context [lib_call ?f ?a ?k ?v ?x] =>
              destruct (lib_call f a k v x) as [[?|?] ?] eqn:?
          | context [lib_method ?s ?m ?a ?k ?v ?x] =>
              destruct (lib_method s m a k v x) as [[?|?] ?] eqn:?
          | context [if negb (truthy ?v) then _ else _] => destruct (truthy v) eqn:?
          | context [if truthy ?v then _ else _] => destruct (truthy v) eqn:?
          | context [globals ?w0 !! ?n] => destruct (globals w0 !! n) eqn:?
          | context [let '(_, _) := ?p in _] => destruct p
          end).
  all: injection H as <- <-.
  all: first [ by left
             | right; left; eexists; reflexivity
             | right; right; eexists _, _, _; eassumption
             | right; right; eexists (PyError "NameError" _), _, _; eassumption ].
Qed.
End rag_errors.

Section chat_route.
Context `{L : Library}.
Implicit Types w : World.

(** When lines 30-49 have completed, the rest of the start-up leaves
    [conversation] as it is. *)
Lemma module_init_binds_conversation w w1 w2 :
  App.module_init w = (Returned tt, w1) → rtc serves w1 w2 →
  is_Some (globals w2 !! "conversation").
Proof.
  intros Hinit Hserve. rewrite (serving_globals _ _ Hserve). clear Hserve w2.
  unfold App.module_init in Hinit. unfold bind at 1 in Hinit.
  destruct (App.init_conversation w) as [[[llm ex]|e] w0] eqn:Hc; [|discriminate].
  apply init_conversation_binds in Hc as [_ Hconv].
  destruct (truthy ex); [|unfold ret in Hinit; by injection Hinit as <-].
  revert Hinit. unfold App.init_vector_store, try_except. unfold bind at 1.
  pose proof (create_vector_store_globals w0) as Hg.
  destruct (App.create_vector_store w0) as [[vs|e] wa]; simpl in Hg.
  - unfold bind, store_global, method, call, print. simpl.
    destruct (lib_method vs _ _ _ _ _) as [[retr|e] x1]; simpl.
    2:{ intros [= <-]. simpl. rewrite lookup_insert_ne by done. by rewrite Hg. }
    destruct (lib_call _ _ _ _ _) as [[qa|e] x2]; simpl; intros [= <-]; simpl;
      repeat rewrite lookup_insert_ne by done; by rewrite Hg.
  - unfold print. intros [= <-]. simpl. by rewrite Hg.
Qed.

(** X4: on a server that has started, [POST /chat] answers with what
    [predict] returns for the message, beside the session id of the
    request, and with a 500 carrying the text of what [predict] raises. *)
Theorem chat_answers_with_the_model_response request w0 w1 w :
  App.module_init w0 = (Returned tt, w1) → rtc serves w1 w →
  ∃ conversation,
    globals w !! "conversation" = Some conversation ∧
    ∀ r x,
      lib_method conversation "predict" [] [("input", VStr (App.message request))]
        (environ w) (ext w) = (r, x) →
      App.chat request w
      = (match r with
         | Returned response =>
             Returned (VDict {[ "response" := response;
                                "session_id" := App.str_or_None (App.session_id request) ]})
         | Raised e => Raised (HTTPException 500 (py_str e))
         end, set_ext x w).
Proof.
  intros Hinit Hserve.
  destruct (module_init_binds_conversation w0 w1 w Hinit Hserve) as [c Hc].
  exists c. split; [exact Hc|]. intros r x Hr.
  unfold App.chat, App.chat_try, try_except, bind, load_global, method, ret, raise.
  rewrite Hc. simpl. rewrite Hr. by destruct r.
Qed.

End chat_route.

(** Running a script in the goal with a library whose calls return. *)
Ltac run_calls Hc Hm :=
  repeat (simpl;
          match goal with
          | |- context [lib_call ?f ?a ?k ?v ?x] =>
              let H := fresh in
              destruct (Hc f a k v x) as (? & ? & H); rewrite H; clear H
          | |- context [lib_method ?s ?m ?a ?k ?v ?x] =>
              let H := fresh in
              destruct (Hm s m a k v x) as (? & ? & H); rewrite H; clear H
          | |- context [if negb (truthy ?v) then _ else _] => destruct (truthy v) eqn:?
          | |- context [if truthy ?v then _ else _] => destruct (truthy v) eqn:?
          | |- context [if negb (String.eqb ?a ?b) then _ else _] =>
              destruct (String.eqb a b) eqn:?
          end).

Section no_crash.
Context `{L : Library}.
Hypothesis HL : dependable L.
Implicit Types w : World.

Let Hc := proj1 HL.
Let Hm := proj1 (proj2 HL).

Lemma replay_returns (l : list PyVal) w :
  session_state w !! "messages" = Some (VList l) → Forall chat_message l →
  ∃ w', replay_history w = (Returned tt, w') ∧ same_process w w'.
Proof.
  intros Hw Hl. unfold replay_history. unfold bind at 1.
  unfold StreamlitApp.session_messages. rewrite Hw. clear Hw.
  revert w. induction Hl as [|v l (role & content & -> & _) _ IH]; intros w.
  - exists w. split; [reflexivity|apply same_process_refl].
  - simpl. unfold bind at 1.
    match goal with |- context [bind ?m ?k w] => set (one := bind m k) end.
    assert (Hone : ∃ w1, one w = (Returned tt, w1) ∧ same_process w w1).
    { subst one. unfold StreamlitApp.with_, StreamlitApp.subscript, bind, call, method, ret.
      rewrite lookup_insert_eq.
      run_calls Hc Hm. rewrite lookup_insert_ne by done. rewrite lookup_singleton_eq.
      run_calls Hc Hm. eexists. split; [reflexivity|]. by repeat split. }
    destruct Hone as (w1 & -> & H1). destruct (IH w1) as (w2 & -> & H2).
    exists w2. split; [reflexivity|]. eapply same_process_trans; eauto.
Qed.

Lemma render_page_returns w :
  history_ok w →
  ∃ w', StreamlitApp.render_page w = (Returned tt, w') ∧
        (∃ l, session_state w' !! "messages" = Some (VList l) ∧ Forall chat_message l) ∧
        sidebar_bound w'.
Proof.
  intros Hh. unfold StreamlitApp.render_page.
  match goal with |- context [bind StreamlitApp.session_messages ?k] =>
    change (bind StreamlitApp.session_messages k) with replay_history
  end.
  unfold StreamlitApp.with_, bind, call, method, store_global, ret, raise.
  repeat (simpl;
          match goal with
          | |- context [lib_call "st.text_input" ?a ?k ?v ?x] =>
              let H := fresh in
              destruct (Hc "st.text_input" a k v x) as (key & ? & H);
              destruct (proj2 (proj2 HL) _ _ _ _ H) as (s & -> & ?); rewrite H; clear H
          | Hn : has_nul ?s = false |- context [has_nul ?s] => rewrite Hn
          | |- context [lib_call ?f ?a ?k ?v ?x] =>
              let H := fresh in
              destruct (Hc f a k v x) as (? & ? & H); rewrite H; clear H
          | |- context [lib_method ?s ?m ?a ?k ?v ?x] =>
              let H := fresh in
              destruct (Hm s m a k v x) as (? & ? & H); rewrite H; clear H
          | |- context [if truthy ?v then _ else _] => destruct (truthy v) eqn:?
          | |- context [if negb (String.eqb ?a ?b) then _ else _] =>
              destruct (String.eqb a b) eqn:?
          end).
  all: simpl; destruct Hh as [Hh|(l & Hh & Hf)]; rewrite Hh; simpl.
  all: match goal with |- context [replay_history ?w0] =>
         first [ destruct (replay_returns [] w0) as (w1 & Hw1 & (_ & Hg & Hs & _));
                 [apply lookup_insert_eq|constructor|]
               | destruct (replay_returns l w0) as (w1 & Hw1 & (_ & Hg & Hs & _));
                 [exact Hh|exact Hf|] ]
       end.
  all: simpl in *; rewrite Hw1; exists w1; (split; [reflexivity|]).
  all: unfold sidebar_bound; rewrite Hs, Hg; simpl; split;
    [ first [ exists []; split; [apply lookup_insert_eq|constructor] | eauto ]
    | repeat split;
      repeat first [ rewrite lookup_insert_eq | rewrite lookup_insert_ne by done ];
      by eexists ].
Qed.


(** Running the rest of the script: calls return, the sidebar names are
    bound, the history is read back from the session state. *)
Ltac run_script :=
  repeat (simpl;
          first [ match goal with
                  | H : globals _ !! _ = Some _ |- _ => rewrite H
                  | H : session_state _ !! _ = Some _ |- _ => rewrite H
                  end
                | rewrite lookup_insert_eq
                | match goal with
                  | |- context [lib_call ?f ?a ?k ?v ?x] =>
                      let H := fresh in
                      destruct (Hc f a k v x) as (? & ? & H); rewrite H; clear H
                  | |- context [lib_method ?s ?m ?a ?k ?v ?x] =>
                      let H := fresh in
                      destruct (Hm s m a k v x) as (? & ? & H); rewrite H; clear H
                  | |- context [if negb (truthy ?v) then _ else _] =>
                      destruct (truthy v) eqn:?
                  | |- context [if truthy ?v then _ else _] => destruct (truthy v) eqn:?
                  end ]).

Lemma chat_section_returns w l :
  sidebar_bound w → session_state w !! "messages" = Some (VList l) →
  Forall chat_message l →
  ∃ w', StreamlitApp.chat_section w = (Returned tt, w') ∧
        (∃ l', session_state w' !! "messages" = Some (VList l') ∧ Forall chat_message l') ∧
        globals w' = globals w.
Proof.
  intros ([k Hk] & [mn Hmn] & [t Ht]) Hl Hf.
  unfold StreamlitApp.chat_section, StreamlitApp.append_message,
    StreamlitApp.session_messages, StreamlitApp.set_session_messages,
    StreamlitApp.initialize_langchain, StreamlitApp.with_,
    bind, call, method, load_global, ret, raise.
  run_script.
  all: eexists; (split; [reflexivity|]); simpl; (split; [|reflexivity]).
  all: first [ by eauto
             | eexists; split; [apply lookup_insert_eq|];
               repeat (apply Forall_app; split); try assumption;
               apply Forall_singleton; eexists; eexists; (split; [reflexivity|auto]) ].
Qed.

Lemma rag_section_returns w :
  sidebar_bound w →
  ∃ w', StreamlitApp.rag_section w = (Returned tt, w') ∧
        session_state w' = session_state w ∧ globals w' = globals w.
Proof.
  intros ([k Hk] & [mn Hmn] & [t Ht]).
  unfold StreamlitApp.rag_section, StreamlitApp.initialize_rag,
    StreamlitApp.initialize_langchain, StreamlitApp.with_,
    try_except, bind, call, method, load_global, ret, raise.
  run_script.
  all: eexists; split; [reflexivity|]; by split.
Qed.


(** X15: with a library whose calls all return and whose key field
    answers with a string without a NUL character, and a history that
    is missing or was written by the script, a run of the script
    completes: the script has no error of its own (no unbound name, no
    missing key, no wrong type), and it leaves a history of the same
    kind for the next run. *)
Theorem script_completes_with_dependable_library w :
  history_ok w →
  ∃ w', StreamlitApp.script w = (Returned tt, w') ∧ history_ok w'.
Proof.
  intros Hh. unfold StreamlitApp.script.
  destruct (render_page_returns w Hh) as (w1 & H1 & (l & Hl & Hf) & Hb).
  unfold bind at 1. rewrite H1.
  destruct (chat_section_returns w1 l Hb Hl Hf) as (w2 & H2 & (l2 & Hl2 & Hf2) & Hg2).
  unfold bind at 1. rewrite H2.
  assert (Hb2 : sidebar_bound w2) by (unfold sidebar_bound; by rewrite Hg2).
  destruct (rag_section_returns w2 Hb2) as (w3 & H3 & Hs3 & _).
  unfold bind at 1. rewrite H3.
  unfold bind, call, ret. run_calls Hc Hm.
  eexists. split; [reflexivity|]. right. exists l2. simpl. by rewrite Hs3.
Qed.

End no_crash.

(** A scripted library in which nothing fails and the key field answers
    with a string without a NUL character is dependable. *)
Lemma scripted_dependable (s : Script) key :
  failing s = [] →
  answers s !! "st.text_input:OpenAI API Key" = Some (VStr key) →
  has_nul key = false →
  dependable (scripted s).
Proof.
  intros Hf Hk Hn.
  assert (Hr : ∀ f args, ∃ r, reply s f args = Returned r).
  { intros f args. unfold reply. rewrite Hf.
    rewrite bool_decide_eq_false_2 by apply not_elem_of_nil.
    destruct (answers s !! call_key f args); eauto. }
  split; [|split].
  - intros f args kwargs env x. destruct (Hr f args) as [r Hrf].
    exists r, (x ++ [f])%list. simpl. by rewrite Hrf.
  - intros self m args kwargs env x. destruct (Hr m args) as [r Hrf].
    exists r, (x ++ [m])%list. simpl. by rewrite Hrf.
  - intros env x r x'.
    change (lib_call "st.text_input" [VStr "OpenAI API Key"] [("type", VStr "password")] env x)
      with (reply s "st.text_input" [VStr "OpenAI API Key"], (x ++ ["st.text_input"])%list).
    unfold reply. rewrite Hf.
    rewrite bool_decide_eq_false_2 by apply not_elem_of_nil.
    change (call_key "st.text_input" [VStr "OpenAI API Key"])
      with "st.text_input:OpenAI API Key".
    rewrite Hk. intros [= <- _]. exists key. by split.
Qed.

(** * Concrete runs *)

(** A server started without a data directory: [vector_store] is [None]
    and [POST /query] is answered by 400. *)
Lemma query_400_iff_no_vector_store_witness :
  ∃ vs, globals (started chatty) !! "vector_store" = Some vs ∧
    (http_status (App.query a_query (started chatty)).1 = Some 400%Z
     ↔ truthy (L := scripted chatty) vs = false) ∧
    (truthy (L := scripted chatty) vs = true →
       (http_status (App.query a_query (started chatty)).1 = Some 200%Z ∨
        http_status (App.query a_query (started chatty)).1 = Some 500%Z) ∧
       ∀ e w', App.query_try a_query (started chatty) = (Raised e, w') →
               App.query a_query (started chatty)
               = (Raised (HTTPException 500 (py_str (L := scripted chatty) e)), w')).
Proof.
  apply (query_400_iff_no_vector_store (L := scripted chatty) a_query
           (fresh_world chatty with_key) (started chatty) (started chatty)).
  - vm_compute. reflexivity.
  - apply rtc_refl.
Defined.

(** [POST /chat] with [session_id = "s-42"] on a server whose model answers. *)
Lemma chat_echoes_session_id_witness :
  ∃ d, VDict {[ "response" := VStr "Hello!"; "session_id" := VStr "s-42" ]} = VDict d ∧
       d !! "session_id" = Some (App.str_or_None (App.session_id hello_request)) ∧
       is_Some (d !! "response").
Proof.
  apply (chat_echoes_session_id (L := scripted chatty) hello_request (started chatty) _
           (App.chat hello_request (started chatty)).2).
  vm_compute. reflexivity.
Defined.

(** The module body of the HTTP API in an empty environment. *)
Lemma missing_api_key_stops_http_api_witness :
  App.module_init (fresh_world chatty ∅)
  = (Raised (ValueError "OPENAI_API_KEY environment variable is not set"),
     fresh_world chatty ∅).
Proof.
  apply (missing_api_key_stops_http_api (L := scripted chatty) (fresh_world chatty ∅)).
  vm_compute. reflexivity.
Defined.

(** A start-up in which [Chroma.from_documents] fails. *)
Lemma early_vector_store_failure_gives_400_witness :
  ∃ w3, App.module_init (fresh_world broken_store with_key) = (Returned tt, w3) ∧
        stdout w3 = ["Error initializing vector store: Chroma.from_documents failed"] ∧
        globals w3 !! "vector_store" = Some VNone ∧
        ∀ w4 q, rtc serves w3 w4 →
          App.query q w4 = (Raised (HTTPException 400 "Vector store not initialized"), w4).
Proof.
  apply (early_vector_store_failure_gives_400 (L := scripted broken_store)
           (fresh_world broken_store with_key) (VObj 0) (VBool true)
           (App.init_conversation (fresh_world broken_store with_key)).2
           (PyError "RuntimeError" "Chroma.from_documents failed")
           (App.create_vector_store
              (App.init_conversation (fresh_world broken_store with_key)).2).2).
  - vm_compute. reflexivity.
  - reflexivity.
  - vm_compute. reflexivity.
Defined.

(** [POST /chat] on a server whose model provider is down. *)
Lemma http_handlers_convert_every_exception_witness :
  ∃ status, http_status (handle (PostChat hello_request) (started flaky_model)).1
            = Some status ∧
            (status = 200 ∨ status = 400 ∨ status = 500)%Z.
Proof.
  apply (http_handlers_convert_every_exception (L := scripted flaky_model)
           (PostChat hello_request) (fresh_world flaky_model with_key)
           (started flaky_model) (started flaky_model)).
  - vm_compute. reflexivity.
  - apply rtc_refl.
Defined.

(** The handler of [app.py], on a started server whose model answers. *)
Lemma app_lambda_handler_result_witness :
  App.module_init (fresh_world chatty with_key) = (Returned tt, started chatty) ∧
  App.lambda_handler hello_event VNone (started chatty)
  = (Returned (VDict {[ "statusCode" := VInt 200;
                        "body" := VDict {[ "response" := VStr "Hello!";
                                           "session_id" := VStr "default" ]} ]}),
     (App.lambda_handler hello_event VNone (started chatty)).2).
Proof.
  split; [vm_compute; reflexivity|].
  apply (proj2 (app_lambda_handler_result (L := scripted chatty) hello_event VNone
                  (started chatty) _ _)).
  exists (VObj 0), (VStr "Hello!"),
    (ext (App.lambda_handler hello_event VNone (started chatty)).2).
  repeat split; vm_compute; reflexivity.
Defined.


(** C2, counterexample: the chat UI starts and runs to its end without
    [OPENAI_API_KEY] in the environment.  With the key field empty the
    run ends after two warnings, the user's message in the history; with
    a key typed into the sidebar the script sets the variable itself and
    the model's answer is added to the history. *)
Lemma streamlit_runs_without_api_key :
  environ (fresh_world ui_no_key ∅) !! "OPENAI_API_KEY" = None ∧
  (StreamlitApp.script (fresh_world ui_no_key ∅)).1 = Returned tt ∧
  session_state (StreamlitApp.script (fresh_world ui_no_key ∅)).2 !! "messages"
  = Some (VList [VDict {[ "role" := VStr "user"; "content" := VStr "Hello" ]}]) ∧
  environ (fresh_world ui_key_typed ∅) !! "OPENAI_API_KEY" = None ∧
  (StreamlitApp.script (fresh_world ui_key_typed ∅)).1 = Returned tt ∧
  environ (StreamlitApp.script (fresh_world ui_key_typed ∅)).2 !! "OPENAI_API_KEY"
  = Some "sk-test" ∧
  session_state (StreamlitApp.script (fresh_world ui_key_typed ∅)).2 !! "messages"
  = Some (VList [VDict {[ "role" := VStr "user"; "content" := VStr "Hello" ]};
                 VDict {[ "role" := VStr "assistant"; "content" := VStr "Hello!" ]}]).
Proof. repeat split; vm_compute; reflexivity. Qed.

(** C3, counterexample: when the model call fails, both serverless
    handlers let the error out as it is; nothing is caught and no error
    response is built. *)
Lemma lambda_handler_lets_exception_escape :
  (App.lambda_handler hello_event VNone (started flaky_model)).1
  = Raised (PyError "RuntimeError" "predict failed") ∧
  (DeployAws.lambda_handler hello_event VNone (fresh_world flaky_model ∅)).1
  = Raised (PyError "RuntimeError" "predict failed").
Proof. split; vm_compute; reflexivity. Qed.

(** C6, counterexample: the server of [app.py] has started, the event is
    a mapping with a [message], and the handler has no result: the call
    of the model raises and the handler ends with that exception. *)
Lemma app_lambda_handler_without_result :
  App.module_init (fresh_world flaky_model with_key) = (Returned tt, started flaky_model) ∧
  hello_event !! "message" = Some (VStr "Hello") ∧
  (∀ v, (App.lambda_handler hello_event VNone (started flaky_model)).1 ≠ Returned v) ∧
  (App.lambda_handler hello_event VNone (started flaky_model)).1
  = Raised (PyError "RuntimeError" "predict failed").
Proof.
  assert (Hr : (App.lambda_handler hello_event VNone (started flaky_model)).1
               = Raised (PyError "RuntimeError" "predict failed"))
    by (vm_compute; reflexivity).
  split; [vm_compute; reflexivity|]. split; [vm_compute; reflexivity|].
  split; [|exact Hr]. intros v. rewrite Hr. discriminate.
Qed.

(** C10, counterexample: the vector store is built and assigned, then
    the retrieval chain fails.  The error is printed and the server
    starts, but [vector_store] is not [None], and [POST /query] is
    answered by 500 (the name [retrieval_qa] is unbound), not by 400. *)
Lemma late_failure_leaves_vector_store_set :
  (App.module_init (fresh_world broken_chain with_key)).1 = Returned tt ∧
  stdout (started broken_chain)
  = ["Error initializing vector store: RetrievalQA.from_chain_type failed"] ∧
  globals (started broken_chain) !! "vector_store" = Some (VObj 0) ∧
  (App.query a_query (started broken_chain)).1
  = Raised (HTTPException 500 "name 'retrieval_qa' is not defined").
Proof. repeat split; vm_compute; reflexivity. Qed.

(** ** Runs for the further properties *)

(** A start-up with a data directory in which every call succeeds. *)
Lemma clean_start_answers_from_the_chain_witness :
  ∃ retrieval_qa, globals (started with_data) !! "retrieval_qa" = Some retrieval_qa.
Proof.
  destruct (clean_start_answers_from_the_chain (L := scripted with_data)
              (fresh_world with_data with_key) (started with_data) (VObj 0))
    as (qa & Hqa & _).
  - vm_compute. reflexivity.
  - vm_compute. reflexivity.
  - vm_compute. reflexivity.
  - reflexivity.
  - exists qa. exact Hqa.
Defined.

(** [POST /chat] on a server whose model answers. *)
Lemma chat_answers_with_the_model_response_witness :
  ∃ conversation, globals (started chatty) !! "conversation" = Some conversation.
Proof.
  destruct (chat_answers_with_the_model_response (L := scripted chatty) hello_request
              (fresh_world chatty with_key) (started chatty) (started chatty))
    as (c & Hc & _).
  - vm_compute. reflexivity.
  - apply rtc_refl.
  - exists c. exact Hc.
Defined.

(** An event with one more key, and another context. *)
Lemma lambda_handler_reads_message_and_session_id_witness :
  serverless InApp hello_event VNone (started chatty)
  = serverless InApp (<["trace" := VInt 7]> hello_event) (VStr "context") (started chatty).
Proof.
  apply (lambda_handler_reads_message_and_session_id (L := scripted chatty)).
  - vm_compute. reflexivity.
  - vm_compute. reflexivity.
Defined.

(** The same message and session through the route and through the handler. *)
Lemma app_lambda_handler_agrees_with_chat_witness :
  App.lambda_handler full_event VNone (started chatty)
  = (Returned (VDict {[ "statusCode" := VInt 200;
                        "body" := VDict {[ "response" := VStr "Hello!";
                                           "session_id" := VStr "s-42" ]} ]}),
     (App.chat hello_request (started chatty)).2).
Proof.
  apply (app_lambda_handler_agrees_with_chat (L := scripted chatty)
           full_event VNone hello_request (started chatty)).
  - vm_compute. reflexivity.
  - vm_compute. reflexivity.
  - vm_compute. reflexivity.
Defined.

(** One [POST /chat] on a started server: one call, [predict]. *)
Lemma one_library_call_per_request_witness :
  calls (handle (PostChat hello_request) started_logged).2
  = (calls started_logged ++ ["predict"])%list.
Proof.
  apply (one_library_call_per_request (L := scripted chatty)
           (PostChat hello_request) started_logged).
  vm_compute. by eexists.
Defined.

(** A run of the script in a session that holds one message. *)
Lemma chat_history_is_append_only_witness :
  ∃ l', session_state (StreamlitApp.script returning_user).2 !! "messages"
        = Some (VList ([user_message (VStr "Hi")] ++ l')%list) ∧
        Forall chat_message l'.
Proof.
  apply (chat_history_is_append_only (L := scripted ui_no_key) returning_user).
  vm_compute. reflexivity.
Defined.

(** The handler of [deploy_aws.py] when the chain cannot be built: three
    calls, the error of the third, no call of the model. *)
Lemma deploy_lambda_stops_at_first_error_witness :
  DeployAws.lambda_handler hello_event VNone cold_start
  = (Raised (PyError "RuntimeError" "ConversationChain failed"),
     set_ext ((["Bedrock"; "DynamoDBChatMessageHistory"; "ConversationChain"],
               ["Bedrock"; "DynamoDBChatMessageHistory"; "ConversationChain"])
              : @Ext (logged (scripted refused_memory))) cold_start).
Proof.
  apply (proj1 (proj2 (proj2 (deploy_lambda_stops_at_first_error
                                (L := scripted refused_memory) hello_event VNone cold_start)))
           (VObj 0) ["Bedrock"] (VObj 0) ["Bedrock"; "DynamoDBChatMessageHistory"]
           (PyError "RuntimeError" "ConversationChain failed")
           ["Bedrock"; "DynamoDBChatMessageHistory"; "ConversationChain"]);
    vm_compute; reflexivity.
Defined.

(** A run with a key typed leaves the other variables alone. *)
Lemma script_writes_only_the_api_key_witness :
  environ (StreamlitApp.script at_home).2 !! "HOME" = environ at_home !! "HOME".
Proof.
  apply (script_writes_only_the_api_key (L := scripted ui_key_typed) at_home "HOME").
  vm_compute. discriminate.
Defined.

(** The page rendered with a key typed into the sidebar. *)
Lemma sidebar_key_is_exported_witness :
  ∃ api_key x x',
    lib_call (Library := scripted ui_key_typed) "st.text_input" [VStr "OpenAI API Key"]
      [("type", VStr "password")] (environ (fresh_world ui_key_typed ∅)) x
    = (Returned api_key, x') ∧
    globals (rendered ui_key_typed) !! "api_key" = Some api_key ∧
    if truthy (L := scripted ui_key_typed) api_key
    then ∃ s, api_key = VStr s ∧ has_nul s = false ∧
              environ (rendered ui_key_typed)
              = <["OPENAI_API_KEY" := s]> (environ (fresh_world ui_key_typed ∅))
    else environ (rendered ui_key_typed) = environ (fresh_world ui_key_typed ∅).
Proof.
  apply (sidebar_key_is_exported (L := scripted ui_key_typed)).
  vm_compute. reflexivity.
Defined.

(** A chat turn after the page was rendered with a key. *)
Lemma chat_turn_is_recorded_witness :
  ∃ tail,
    session_state (StreamlitApp.chat_section (rendered ui_key_typed)).2 !! "messages"
    = Some (VList ([] ++ user_message (VStr "Hello") :: tail)%list).
Proof.
  destruct (chat_turn_is_recorded (L := scripted ui_key_typed) (rendered ui_key_typed)
              (StreamlitApp.chat_section (rendered ui_key_typed)).2 [])
    as (prompt & x & Hp & Hturn).
  - vm_compute. reflexivity.
  - vm_compute. reflexivity.
  - vm_compute in Hp. injection Hp as <- _. simpl in Hturn.
    destruct Hturn as (tail & Ht & _). exists tail. exact Ht.
Defined.

(** The data directory cannot be tested: the error leaves [initialize_rag]. *)
Lemma initialize_rag_reports_errors_witness :
  ∃ x, lib_call (Library := scripted rag_down) "os.path.exists" [VStr "data"] []
         (environ (rendered rag_down)) (ext (rendered rag_down))
       = (Raised (PyError "RuntimeError" "os.path.exists failed"), x).
Proof.
  destruct (initialize_rag_reports_errors (L := scripted rag_down) (rendered rag_down)
              (PyError "RuntimeError" "os.path.exists failed")
              (StreamlitApp.initialize_rag (rendered rag_down)).2)
    as [[Hn _]|[H|(c & x & x' & H)]].
  - vm_compute. reflexivity.
  - vm_compute in Hn. discriminate.
  - exact H.
  - vm_compute in H. discriminate.
Defined.

(** A complete run of the chat UI with a key typed and a model that answers. *)
Lemma script_completes_with_dependable_library_witness :
  ∃ w', StreamlitApp.script (fresh_world ui_key_typed ∅) = (Returned tt, w') ∧
        history_ok w'.
Proof.
  apply (script_completes_with_dependable_library (L := scripted ui_key_typed)).
  - apply (scripted_dependable ui_key_typed "sk-test"); vm_compute; reflexivity.
  - left. vm_compute. reflexivity.
Defined.
